(** * Authentication and authorization pipeline of the gms-be backend

    A shallow embedding of
    - [src/gms-be/src/auth/auth.service.ts]            (module [AuthService]),
    - [src/unnamed/part_000], a second revision of the
      same service                                     (module [AuthServiceRev]),
    - [src/gms-be/src/common/strategies/jwt.strategy.ts] (module [JwtStrategy]),
    - [src/gms-be/src/common/guards/role-guard.ts]     (module [RolesGuard]),
    followed by the properties of the claims resolution, the credential
    validation and the access-control gate.

    Promises are modelled by their outcome: a computation either returns a
    value or throws one of the exceptions of the source. *)

From Stdlib Require Import String List Bool ZArith.
From stdpp Require Import base option list strings gmap.
Import ListNotations.

Local Open Scope string_scope.
Local Open Scope list_scope.

(** ** Exceptions and fallible computations *)

(** The Nest exceptions used by the source, the [TypeError] the JavaScript
    runtime raises when a property is read on [null]/[undefined], and the
    failure of a persistence query. *)
Inductive Exception : Type :=
| NotFoundException (message : string)
| UnauthorizedException (message : string)
| ForbiddenException (message : string)
| InternalServerErrorException (message : string)
| TypeError
| PrismaClientError.

Inductive Result (A : Type) : Type :=
| Ok (value : A)
| Throw (error : Exception).

Arguments Ok {A} value.
Arguments Throw {A} error.

#[global] Instance Result_ret : MRet Result := fun _ x => Ok x.

#[global] Instance Result_bind : MBind Result := fun _ _ k m =>
  match m with
  | Ok x => k x
  | Throw e => Throw e
  end.

(** [try { body } catch (error) { handler error }] *)
Definition try_catch {A : Type} (body : Result A) (handler : Exception -> Result A)
  : Result A :=
  match body with
  | Ok x => Ok x
  | Throw e => handler e
  end.

(** ** JavaScript values as the source tests them *)

(** Truthiness of a string: only the empty string is falsy. *)
Definition truthy (s : string) : bool := negb (String.eqb s "").

(** Truthiness of an optional string ([undefined] is falsy). *)
Definition truthy_opt (o : option string) : bool :=
  match o with
  | Some s => truthy s
  | None => false
  end.

(** The values held by the properties of a request or of [request.user]. *)
Inductive JsValue : Type :=
| JsUndefined
| JsNull
| JsBoolean (b : bool)
| JsString (s : string)
| JsStringArray (l : list string).

Definition js_truthy (v : JsValue) : bool :=
  match v with
  | JsUndefined | JsNull => false
  | JsBoolean b => b
  | JsString s => truthy s
  | JsStringArray _ => true
  end.

(** A plain object: a finite map from property names to values. *)
Abbreviation JsObject := (gmap string JsValue).

(** [obj?.name]: reading a property of a possibly undefined object; an absent
    property reads as [undefined]. *)
Definition js_get (obj : option JsObject) (name : string) : JsValue :=
  match obj with
  | Some o => default JsUndefined (o !! name)
  | None => JsUndefined
  end.

Definition js_of_opt_string (o : option string) : JsValue :=
  match o with
  | Some s => JsString s
  | None => JsUndefined
  end.

(** [roles.includes(v)] on an array of strings. *)
Definition js_includes (roles : list string) (v : JsValue) : bool :=
  match v with
  | JsString s => existsb (String.eqb s) roles
  | _ => false
  end.

(** ** Persisted data, as the queries of the source return it *)

Record Role : Type := { roleName : string }.

(** A row of [userRoles] fetched with [include: { role: true }]; [None] is a
    [null] relation, on which [.roleName] raises a [TypeError]. *)
Record UserRole : Type := { role : option Role }.

Record Feature : Type := { feature : string }.

(** An organization fetched with [include: { features: true }]. *)
Record Organization : Type := {
  org_id : string;
  org_userId : string;
  org_features : list Feature
}.

(** A row of [userOffice] fetched with its organization. *)
Record UserOffice : Type := { organization : option Organization }.

Record User : Type := {
  user_id : string;
  user_email : string;
  userName : string;
  password : string;
  userRoles : list UserRole;
  userOffice : list UserOffice
}.

(** The persistence service: the two tables the pipeline reads, and whether
    the queries against each of them fail. *)
Record PrismaService : Type := {
  user_table : list User;
  organization_table : list Organization;
  user_query_fails : bool;
  organization_query_fails : bool
}.

(** [prisma.user.findUnique({ where: { id } , include: ... })] *)
Definition user_findUnique_id (prisma : PrismaService) (id : string)
  : Result (option User) :=
  if user_query_fails prisma then Throw PrismaClientError
  else Ok (find (fun u => String.eqb (user_id u) id) (user_table prisma)).

(** [prisma.user.findUnique({ where: { email } , include: ... })] *)
Definition user_findUnique_email (prisma : PrismaService) (email : string)
  : Result (option User) :=
  if user_query_fails prisma then Throw PrismaClientError
  else Ok (find (fun u => String.eqb (user_email u) email) (user_table prisma)).

(** [prisma.organization.findFirst({ where: { userId }, include: { features: true } })] *)
Definition organization_findFirst_userId (prisma : PrismaService) (userId : string)
  : Result (option Organization) :=
  if organization_query_fails prisma then Throw PrismaClientError
  else Ok (find (fun o => String.eqb (org_userId o) userId) (organization_table prisma)).

(** ** Shared expressions of the three source files *)

(** [user.userRoles[0]?.role.roleName || 'user'] *)
Definition first_roleName (user : User) : Result string :=
  match userRoles user with
  | [] => Ok "user"
  | ur :: _ =>
      match role ur with
      | None => Throw TypeError
      | Some r => Ok (if truthy (roleName r) then roleName r else "user")
      end
  end.

(** [user.userOffice[0]?.organization] *)
Definition first_organization (user : User) : option Organization :=
  match userOffice user with
  | [] => None
  | uo :: _ => organization uo
  end.

(** [features.map(f => f.feature)] *)
Definition feature_strings (fs : list Feature) : list string := map feature fs.

(** [.filter(Boolean)] on an array of strings. *)
Definition filter_Boolean (l : list string) : list string := List.filter truthy l.

(** ** interfaces/auth.interface.ts *)

Record JwtPayload : Type := {
  sub : string;
  email : string;
  payload_role : string;
  organizationId : option string;
  features : list string;
  isSuperAdmin : bool
}.

Record AuthUser : Type := {
  au_id : string;
  au_email : string;
  au_userName : string;
  au_role : option string;
  au_organizationId : option string;
  au_features : option (list string);
  au_isSuperAdmin : option bool
}.

Record AuthResponse : Type := {
  token : string;
  user : AuthUser
}.

Record LoginDto : Type := {
  dto_email : string;
  dto_password : string
}.

(** ** auth.service.ts *)

Module AuthService.
Section Collaborators.

(** [ALL_FEATURES] of [common/constants/features], the static catalog. *)
Variable ALL_FEATURES : list string.
(** [jwtService.sign] *)
Variable jwt_sign : JwtPayload -> string.
(** [bcrypt.compare] *)
Variable bcrypt_compare : string -> string -> bool.
(** [userService.create], which persists the new user. *)
Variable CreateUserDto : Type.
Variable userService_create :
  PrismaService -> CreateUserDto -> Result (PrismaService * User).

Definition generateTokenPayload (prisma : PrismaService) (userId : string)
  : Result JwtPayload :=
  try_catch
    (found ← user_findUnique_id prisma userId;
     match found with
     | None => Throw (NotFoundException "User not found")
     | Some u =>
         r ← first_roleName u;
         let superAdmin := String.eqb r "superAdmin" in
         let org := first_organization u in
         let orgId := if superAdmin then None else org_id <$> org in
         let feats :=
           if superAdmin then ALL_FEATURES
           else match org with
                | Some o => filter_Boolean (feature_strings (org_features o))
                | None => []
                end in
         Ok {| sub := user_id u;
               email := user_email u;
               payload_role := r;
               organizationId := orgId;
               features := feats;
               isSuperAdmin := superAdmin |}
     end)
    (fun _ => Throw (InternalServerErrorException "Error generating auth token")).

(** The response built by [signup] and [login] from the user and the payload. *)
Definition auth_response (u : User) (payload : JwtPayload) : AuthResponse :=
  {| token := jwt_sign payload;
     user := {| au_id := user_id u;
                au_email := user_email u;
                au_userName := userName u;
                au_role := Some (payload_role payload);
                au_organizationId := organizationId payload;
                au_features := Some (features payload);
                au_isSuperAdmin := Some (isSuperAdmin payload) |} |}.

(** [signup] returns the response and the persistence state left by
    [userService.create]; its [catch] rethrows the error it caught. *)
Definition signup (prisma : PrismaService) (dto : CreateUserDto)
  : Result (PrismaService * AuthResponse) :=
  try_catch
    (created ← userService_create prisma dto;
     let '(prisma', u) := created in
     payload ← generateTokenPayload prisma' (user_id u);
     Ok (prisma', auth_response u payload))
    (fun error => Throw error).

Definition login (prisma : PrismaService) (dto : LoginDto) : Result AuthResponse :=
  try_catch
    (found ← user_findUnique_email prisma (dto_email dto);
     match found with
     | None => Throw (NotFoundException "User not found")
     | Some u =>
         if negb (bcrypt_compare (dto_password dto) (password u))
         then Throw (UnauthorizedException "Invalid credentials")
         else
           payload ← generateTokenPayload prisma (user_id u);
           Ok (auth_response u payload)
     end)
    (fun error =>
       match error with
       | NotFoundException _ | UnauthorizedException _ => Throw error
       | _ => Throw (InternalServerErrorException "Login failed")
       end).

End Collaborators.
End AuthService.

(** ** unnamed/part_000: the revision of the service that resolves the
    organization through [organization.findFirst({ userId })] *)

Module AuthServiceRev.
Section Collaborators.

Variable ALL_FEATURES : list string.
Variable jwt_sign : JwtPayload -> string.
Variable bcrypt_compare : string -> string -> bool.

(** The [else] branch of [generateTokenPayload]: the inner [try] around the
    organization query.  When the query throws, [organizationId] keeps its
    initial [undefined] and [features] is reset to the empty array. *)
Definition organization_claims (prisma : PrismaService) (u : User)
  : option string * list string :=
  match organization_findFirst_userId prisma (user_id u) with
  | Ok org =>
      (org_id <$> org,
       match org with
       | Some o => feature_strings (org_features o)
       | None => []
       end)
  | Throw _ => (None, [])
  end.

Definition generateTokenPayload (prisma : PrismaService) (userId : string)
  : Result JwtPayload :=
  try_catch
    (found ← user_findUnique_id prisma userId;
     match found with
     | None => Throw (NotFoundException "User not found")
     | Some u =>
         r ← first_roleName u;
         let superAdmin := String.eqb r "superAdmin" in
         let claims :=
           if superAdmin then (None, ALL_FEATURES)
           else organization_claims prisma u in
         Ok {| sub := user_id u;
               email := user_email u;
               payload_role := r;
               organizationId := fst claims;
               features := snd claims;
               isSuperAdmin := superAdmin |}
     end)
    (fun _ => Throw (InternalServerErrorException "Error generating auth token")).

(** The response [login] returns when the role cannot be derived. *)
Definition role_failure_response (u : User) : AuthResponse :=
  {| token := "";
     user := {| au_id := user_id u;
                au_email := user_email u;
                au_userName := userName u;
                au_role := None;
                au_organizationId := None;
                au_features := Some [];
                au_isSuperAdmin := Some false |} |}.

(** The locals [organizationId] and [features] that [login] computes from
    [user.userOffice] when the user is not a superadmin.  The response does
    not read them: it is built from the payload alone. *)
Definition login_locals (u : User) (superAdmin : bool)
  : option string * option (list string) :=
  if superAdmin then (None, None)
  else
    match first_organization u with
    | None => (None, Some [])
    | Some o =>
        (Some (org_id o), Some (filter_Boolean (feature_strings (org_features o))))
    end.

Definition login (prisma : PrismaService) (dto : LoginDto) : Result AuthResponse :=
  try_catch
    (found ← user_findUnique_email prisma (dto_email dto);
     match found with
     | None => Throw (NotFoundException "User not found")
     | Some u =>
         if negb (bcrypt_compare (dto_password dto) (password u))
         then Throw (UnauthorizedException "Invalid credentials")
         else
           match first_roleName u with
           | Throw _ => Ok (role_failure_response u)
           | Ok r =>
               let superAdmin := String.eqb r "superAdmin" in
               let _ := login_locals u superAdmin in
               payload ← generateTokenPayload prisma (user_id u);
               Ok {| token := jwt_sign payload;
                     user := {| au_id := user_id u;
                                au_email := user_email u;
                                au_userName := userName u;
                                au_role := Some (payload_role payload);
                                au_organizationId := organizationId payload;
                                au_isSuperAdmin := Some (isSuperAdmin payload);
                                au_features := Some (features payload) |} |}
           end
     end)
    (fun error =>
       match error with
       | NotFoundException _ | UnauthorizedException _ => Throw error
       | _ => Throw (InternalServerErrorException "Login failed")
       end).

End Collaborators.
End AuthServiceRev.

(** ** common/strategies/jwt.strategy.ts *)

Module JwtStrategy.

(** The payload [validate] receives from passport-jwt once the signature and
    the expiry of the token have been checked.  [sub] and [email] are strings
    in the declared interface; an absent field is the empty string here, both
    being falsy. *)
Record DecodedPayload : Type := {
  dp_sub : string;
  dp_email : string;
  dp_organizationId : option string;
  dp_features : option (list string);
  dp_role : option string;
  dp_isSuperAdmin : option bool;
  dp_iat : option Z;
  dp_exp : option Z
}.

(** The object [validate] returns, which passport stores in [request.user]. *)
Record Principal : Type := {
  p_id : string;
  p_email : string;
  p_organizationId : option string;
  p_features : list string;
  p_isSuperAdmin : bool;
  p_role : string
}.

(** [user.userRoles.some(ur => ur.role.roleName === 'superAdmin')]: the rows
    are visited in order, up to the first superAdmin one. *)
Fixpoint some_superAdmin (rows : list UserRole) : Result bool :=
  match rows with
  | [] => Ok false
  | ur :: rest =>
      match role ur with
      | None => Throw TypeError
      | Some r =>
          if String.eqb (roleName r) "superAdmin" then Ok true
          else some_superAdmin rest
      end
  end.

Definition validate (prisma : PrismaService) (payload : DecodedPayload)
  : Result Principal :=
  try_catch
    (if negb (truthy (dp_sub payload)) || negb (truthy (dp_email payload))
     then Throw (UnauthorizedException "Invalid token format")
     else
       found ← user_findUnique_id prisma (dp_sub payload);
       match found with
       | None => Throw (UnauthorizedException "User not found")
       | Some u =>
           let org := first_organization u in
           let orgId := org_id <$> org in
           let feats :=
             match org with
             | Some o => feature_strings (org_features o)
             | None => []
             end in
           superAdmin ← some_superAdmin (userRoles u);
           if negb superAdmin && negb (truthy_opt orgId)
           then Throw (UnauthorizedException "User has no organization access")
           else
             r ← first_roleName u;
             Ok {| p_id := user_id u;
                   p_email := user_email u;
                   p_organizationId := orgId;
                   p_features := feats;
                   p_isSuperAdmin := superAdmin;
                   p_role := r |}
       end)
    (fun error =>
       match error with
       | UnauthorizedException _ => Throw error
       | _ => Throw (UnauthorizedException "Authentication failed")
       end).

(** The payload passport-jwt decodes from the token that [jwtService.sign]
    produced for [payload] at time [iat] with expiry [exp]. *)
Definition decoded (payload : JwtPayload) (iat exp : Z) : DecodedPayload :=
  {| dp_sub := sub payload;
     dp_email := email payload;
     dp_organizationId := organizationId payload;
     dp_features := Some (features payload);
     dp_role := Some (payload_role payload);
     dp_isSuperAdmin := Some (isSuperAdmin payload);
     dp_iat := Some iat;
     dp_exp := Some exp |}.

(** The returned object as a plain object, property by property. *)
Definition request_user (p : Principal) : JsObject :=
  {[ "id" := JsString (p_id p);
     "email" := JsString (p_email p);
     "organizationId" := js_of_opt_string (p_organizationId p);
     "features" := JsStringArray (p_features p);
     "isSuperAdmin" := JsBoolean (p_isSuperAdmin p);
     "role" := JsString (p_role p) ]}.

End JwtStrategy.

(** ** common/guards/role-guard.ts *)

Module RolesGuard.

(** What the guard reads of the execution context: [request.user] and
    [request.organizationId]. *)
Record Request : Type := {
  req_user : option JsObject;
  req_organizationId : JsValue
}.

(** [v === 'organizationAdmin'] *)
Definition is_organizationAdmin (v : JsValue) : bool :=
  match v with
  | JsString s => String.eqb s "organizationAdmin"
  | _ => false
  end.

(** [requiredRoles] is the metadata found by the reflector, [None] when the
    route declares none. *)
Definition canActivate (requiredRoles : option (list string)) (request : Request)
  : Result bool :=
  match requiredRoles with
  | None | Some [] => Ok true
  | Some roles =>
      let u := req_user request in
      if negb (js_truthy (js_get u "userId")) || negb (js_truthy (js_get u "roleName"))
      then Throw (ForbiddenException "Missing userId or roleName in token")
      else if is_organizationAdmin (js_get u "roleName")
      then
        if negb (js_truthy (req_organizationId request))
        then Throw (ForbiddenException "Organization context missing")
        else Ok true
      else if negb (js_includes roles (js_get u "roleName"))
      then Throw (ForbiddenException
                    (String.append "Access denied. Required roles: "
                                   (String.concat ", " roles)))
      else Ok true
  end.

End RolesGuard.

(** ** Vocabulary of the properties *)

(** A role binding whose role is superAdmin. *)
Definition superAdmin_row (ur : UserRole) : Prop :=
  exists r, role ur = Some r /\ roleName r = "superAdmin".

(** The user holds a superAdmin role binding, at any position. *)
Definition has_superAdmin_binding (u : User) : Prop :=
  Exists superAdmin_row (userRoles u).

(** The first role binding of the user is a superAdmin one. *)
Definition first_binding_superAdmin (u : User) : Prop :=
  exists ur rest, userRoles u = ur :: rest /\ superAdmin_row ur.

(** Every role binding was fetched with its role. *)
Definition roles_loaded (u : User) : Prop :=
  Forall (fun ur => role ur <> None) (userRoles u).

(** The payload [generateTokenPayload] builds for a superadmin. *)
Definition superAdmin_payload (ALL_FEATURES : list string) (u : User) : JwtPayload :=
  {| sub := user_id u;
     email := user_email u;
     payload_role := "superAdmin";
     organizationId := None;
     features := ALL_FEATURES;
     isSuperAdmin := true |}.

(** The principal carries the claims of the payload, and the identity of
    the token it was issued in. *)
Definition same_claims (p : JwtStrategy.Principal) (payload : JwtPayload) : Prop :=
  JwtStrategy.p_id p = sub payload /\
  JwtStrategy.p_email p = email payload /\
  JwtStrategy.p_role p = payload_role payload /\
  JwtStrategy.p_organizationId p = organizationId payload /\
  JwtStrategy.p_features p = features payload /\
  JwtStrategy.p_isSuperAdmin p = isSuperAdmin payload.

(** The role the guard reads is a string that occurs in the required roles. *)
Definition role_in (roles : list string) (v : JsValue) : Prop :=
  exists s, v = JsString s /\ In s roles.

(** ** Sample data *)

Module Sample.

Definition role_of (name : string) : UserRole :=
  {| role := Some {| roleName := name |} |}.

Definition catalog : list string := ["dashboard"; "payroll"; "reports"].

Definition acme : Organization :=
  {| org_id := "org-1"; org_userId := "u-admin";
     org_features := [ {| feature := "payroll" |}; {| feature := "reports" |} ] |}.

(** An organization one of whose feature rows holds the empty string. *)
Definition blanks : Organization :=
  {| org_id := "org-2"; org_userId := "u-blank";
     org_features := [ {| feature := "" |}; {| feature := "payroll" |} ] |}.

Definition root : User :=
  {| user_id := "u-root"; user_email := "root@gms.io"; userName := "root";
     password := "h-root"; userRoles := [ role_of "superAdmin" ]; userOffice := [] |}.

(** Holds a superAdmin binding, but not as the first one. *)
Definition promoted : User :=
  {| user_id := "u-prom"; user_email := "prom@gms.io"; userName := "prom";
     password := "h-prom";
     userRoles := [ role_of "organizationAdmin"; role_of "superAdmin" ];
     userOffice := [ {| organization := Some acme |} ] |}.

Definition admin : User :=
  {| user_id := "u-admin"; user_email := "admin@acme.io"; userName := "admin";
     password := "h-admin"; userRoles := [ role_of "organizationAdmin" ];
     userOffice := [ {| organization := Some acme |} ] |}.

Definition blank_admin : User :=
  {| user_id := "u-blank"; user_email := "blank@acme.io"; userName := "blank";
     password := "h-blank"; userRoles := [ role_of "organizationAdmin" ];
     userOffice := [ {| organization := Some blanks |} ] |}.

(** A non-superadmin account bound to no organization. *)
Definition orphan : User :=
  {| user_id := "u-orphan"; user_email := "orphan@gms.io"; userName := "orphan";
     password := "h-orphan"; userRoles := [ role_of "guard" ]; userOffice := [] |}.

(** An account whose role binding was fetched without its role. *)
Definition broken : User :=
  {| user_id := "u-broken"; user_email := "broken@gms.io"; userName := "broken";
     password := "h-broken"; userRoles := [ {| role := None |} ]; userOffice := [] |}.

Definition prisma : PrismaService :=
  {| user_table := [root; promoted; admin; blank_admin; orphan; broken];
     organization_table := [acme; blanks];
     user_query_fails := false;
     organization_query_fails := false |}.

(** A decoded payload that carries only the identity of [u]. *)
Definition bearer (u : User) : JwtStrategy.DecodedPayload :=
  {| JwtStrategy.dp_sub := user_id u;
     JwtStrategy.dp_email := user_email u;
     JwtStrategy.dp_organizationId := None;
     JwtStrategy.dp_features := None;
     JwtStrategy.dp_role := None;
     JwtStrategy.dp_isSuperAdmin := None;
     JwtStrategy.dp_iat := Some 1700000000%Z;
     JwtStrategy.dp_exp := Some 1700003600%Z |}.

(** A stand-in for [bcrypt.compare]: the stored hash is [h-] followed by the
    password. *)
Definition compare (plain hash : string) : bool :=
  String.eqb (String.append "h-" plain) hash.

(** A stand-in for [jwtService.sign]. *)
Definition sign (payload : JwtPayload) : string :=
  String.append "jwt:" (sub payload).

End Sample.

(** ** organization/organization.service.ts: offices and bank accounts *)

Module OrganizationService.
Section Tables.

(** The fields of [CreateOfficeDto] and of [CreateOrganizationBankAccountDto],
    and the value of [generateRandomNumber(4)]: none of them is inspected. *)
Variable CreateOfficeDto : Type.
Variable CreateOrganizationBankAccountDto : Type.
Variable BranchCode : Type.

(** An office row: [{ ...dto, organizationId, branchCode }] under the primary
    key the database assigned. *)
Record Office : Type := {
  office_id : string;
  office_organizationId : string;
  branchCode : BranchCode;
  office_fields : CreateOfficeDto
}.

Record BankAccount : Type := {
  account_id : string;
  account_organizationId : string;
  account_fields : CreateOrganizationBankAccountDto
}.

(** The persistence service seen from the organization service: the tables
    of [PrismaService]; the email of each organization, a column the
    resolution of claims does not read, under the id of its row; the roles,
    the offices and the bank accounts; and whether the queries against the
    three new tables fail. *)
Record Database : Type := {
  prisma : PrismaService;
  organization_email : list (string * string);
  role_table : list Role;
  office_table : list Office;
  bankAccount_table : list BankAccount;
  role_query_fails : bool;
  office_query_fails : bool;
  bankAccount_query_fails : bool
}.

(** What the code receives from outside for a creation: the primary key of
    the new row and the result of [generateRandomNumber(4)]. *)
Record Generated : Type := {
  generated_id : string;
  generated_branchCode : BranchCode
}.

(** [prisma.organization.findUnique({ where: { id } })] *)
Definition organization_findUnique_id (db : Database) (id : string)
  : Result (option Organization) :=
  if organization_query_fails (prisma db) then Throw PrismaClientError
  else Ok (find (fun o => String.eqb (org_id o) id)
                (organization_table (prisma db))).

(** [prisma.office.findUnique({ where: { id } })] *)
Definition office_findUnique_id (db : Database) (id : string)
  : Result (option Office) :=
  if office_query_fails db then Throw PrismaClientError
  else Ok (find (fun o => String.eqb (office_id o) id) (office_table db)).

(** The rows of an organization, in the order of the table. *)
Definition offices_of (organizationId : string) (rows : list Office) : list Office :=
  List.filter (fun o => String.eqb (office_organizationId o) organizationId) rows.

Definition accounts_of (organizationId : string) (rows : list BankAccount)
  : list BankAccount :=
  List.filter (fun a => String.eqb (account_organizationId a) organizationId) rows.

(** [prisma.office.findMany({ where: { organizationId }, include: { organization: true } })]:
    every row comes with the organization its foreign key names. *)
Definition office_findMany (db : Database) (organizationId : string)
  : Result (list (Office * option Organization)) :=
  if office_query_fails db then Throw PrismaClientError
  else Ok (map (fun o =>
                  (o, find (fun g => String.eqb (org_id g) (office_organizationId o))
                           (organization_table (prisma db))))
               (offices_of organizationId (office_table db))).

(** [prisma.office.create({ data, include: { organization: true } })] *)
Definition office_create (db : Database) (row : Office)
  : Result (Database * (Office * option Organization)) :=
  if office_query_fails db then Throw PrismaClientError
  else Ok ({| prisma := prisma db;
              organization_email := organization_email db;
              role_table := role_table db;
              office_table := office_table db ++ [row];
              bankAccount_table := bankAccount_table db;
              role_query_fails := role_query_fails db;
              office_query_fails := office_query_fails db;
              bankAccount_query_fails := bankAccount_query_fails db |},
           (row, find (fun g => String.eqb (org_id g) (office_organizationId row))
                      (organization_table (prisma db)))).

(** [prisma.office.delete({ where: { id } })]: the row is removed and
    returned; deleting a row that does not exist is an error of the client. *)
Definition office_delete (db : Database) (id : string)
  : Result (Database * Office) :=
  if office_query_fails db then Throw PrismaClientError
  else match find (fun o => String.eqb (office_id o) id) (office_table db) with
       | None => Throw PrismaClientError
       | Some row =>
           Ok ({| prisma := prisma db;
                  organization_email := organization_email db;
                  role_table := role_table db;
                  office_table :=
                    List.filter (fun o => negb (String.eqb (office_id o) id))
                                (office_table db);
                  bankAccount_table := bankAccount_table db;
                  role_query_fails := role_query_fails db;
                  office_query_fails := office_query_fails db;
                  bankAccount_query_fails := bankAccount_query_fails db |},
               row)
       end.

(** [prisma.organizationBankAccount.findMany({ where: { organizationId } })] *)
Definition bankAccount_findMany (db : Database) (organizationId : string)
  : Result (list BankAccount) :=
  if bankAccount_query_fails db then Throw PrismaClientError
  else Ok (accounts_of organizationId (bankAccount_table db)).

(** [prisma.organizationBankAccount.create({ data, include: { organization: true } })] *)
Definition bankAccount_create (db : Database) (row : BankAccount)
  : Result (Database * (BankAccount * option Organization)) :=
  if bankAccount_query_fails db then Throw PrismaClientError
  else Ok ({| prisma := prisma db;
              organization_email := organization_email db;
              role_table := role_table db;
              office_table := office_table db;
              bankAccount_table := bankAccount_table db ++ [row];
              role_query_fails := role_query_fails db;
              office_query_fails := office_query_fails db;
              bankAccount_query_fails := bankAccount_query_fails db |},
           (row, find (fun g => String.eqb (org_id g) (account_organizationId row))
                      (organization_table (prisma db)))).

Definition addOffice (db : Database) (gen : Generated)
    (dto : CreateOfficeDto) (organizationId : string)
  : Result (Database * (Office * option Organization)) :=
  if negb (truthy organizationId)
  then Throw (NotFoundException "Organization ID missing")
  else
    org ← organization_findUnique_id db organizationId;
    match org with
    | None => Throw (NotFoundException "Organization doesn't exist")
    | Some _ =>
        office_create db {| office_id := generated_id gen;
                            office_organizationId := organizationId;
                            branchCode := generated_branchCode gen;
                            office_fields := dto |}
    end.

Definition addBankAccount (db : Database) (newId : string)
    (dto : CreateOrganizationBankAccountDto) (organizationId : string)
  : Result (Database * (BankAccount * option Organization)) :=
  if negb (truthy organizationId)
  then Throw (NotFoundException "Organization ID missing")
  else
    org ← organization_findUnique_id db organizationId;
    match org with
    | None => Throw (NotFoundException "Organization doesn't exist")
    | Some _ =>
        bankAccount_create db {| account_id := newId;
                                 account_organizationId := organizationId;
                                 account_fields := dto |}
    end.

(** In [getOffices] the organization query is awaited inside the [try]; the
    office query is returned without [await], so the promise it returns
    settles after the [try] block was left and its rejection does not reach
    the [catch]. *)
Definition getOffices (db : Database) (organizationId : string)
  : Result (list (Office * option Organization)) :=
  _ ← try_catch
        (if negb (truthy organizationId)
         then Throw (NotFoundException "Organization ID missing")
         else
           org ← organization_findUnique_id db organizationId;
           match org with
           | None =>
               Throw (NotFoundException
                        (String.append "Organization with ID "
                           (String.append organizationId " not found")))
           | Some _ => Ok tt
           end)
        (fun error =>
           match error with
           | NotFoundException _ => Throw error
           | _ => Throw (InternalServerErrorException
                           "Failed to fetch offices. Please try again later.")
           end);
  office_findMany db organizationId.

Definition getAllBankAccounts (db : Database) (organizationId : string)
  : Result (list BankAccount) :=
  if negb (truthy organizationId)
  then Throw (NotFoundException "Organization ID missing")
  else bankAccount_findMany db organizationId.

Definition deleteOffice (db : Database) (officeId organizationId : string)
  : Result (Database * Office) :=
  office ← office_findUnique_id db officeId;
  match office with
  | None => Throw (NotFoundException "Office with this ID doesn't exist")
  | Some o =>
      if negb (String.eqb (office_organizationId o) organizationId)
      then Throw (NotFoundException "Office with this ID doesn't exist")
      else office_delete db officeId
  end.

(** *** [create] *)

(** What [create] can catch: the exceptions of the pipeline, the Conflict
    exception, a request the database rejected with an error code and the
    constraint it names in [meta.target], and a plain [Error]. *)
Inductive Thrown : Type :=
| Http (e : Exception)
| ConflictException (message : string)
| KnownRequestError (code : string) (target : option (list string))
| PlainError (message : string).

Inductive Attempt (A : Type) : Type :=
| Done (value : A)
| Failed (error : Thrown).

Arguments Done {A} value.
Arguments Failed {A} error.

(** An awaited query inside [create]. *)
Definition awaited {A : Type} (r : Result A) : Attempt A :=
  match r with
  | Ok x => Done x
  | Throw e => Failed (Http e)
  end.

Definition and_then {A B : Type} (m : Attempt A) (k : A -> Attempt B) : Attempt B :=
  match m with
  | Done x => k x
  | Failed e => Failed e
  end.

(** The columns of [CreateOrganizationDto] that are stored as they are given
    (name, province, city, phone numbers, address lines), with the name the
    response reads. *)
Variable OrganizationColumns : Type.
Variable organizationName : OrganizationColumns -> string.
(** [bcrypt.hash(password, 10)] *)
Variable bcrypt_hash : string -> string.
(** [RolesEnum.organizationAdmin] *)
Variable RolesEnum_organizationAdmin : string.
(** The [message] of an error raised by the runtime or by the database client. *)
Variable native_message : Thrown -> string.

(** [features] is [None] when the field is not an array, [office] when it is
    absent or not an array. *)
Record CreateOrganizationDto : Type := {
  new_columns : OrganizationColumns;
  new_email : string;
  new_password : string;
  new_userName : string;
  new_features : option (list string);
  new_office : option (list CreateOfficeDto)
}.

(** What the database decides during one call of [create]: the primary keys
    of the user and of the organization, the key and the branch code of the
    n-th office, and, when it rejects the creation of the user for a unique
    constraint (code P2002), the [meta.target] of the error. *)
Record Assigned : Type := {
  assigned_user_id : string;
  assigned_organization_id : string;
  assigned_office : nat -> Generated;
  rejected : option (option (list string))
}.

Record CreatedUser : Type := {
  created_id : string;
  created_email : string;
  created_userName : string;
  created_roleName : string;
  created_organizationId : string;
  created_features : list string;
  created_isSuperAdmin : bool
}.

Record CreatedOrganization : Type := {
  organization_id : string;
  organization_name : string;
  organization_features : list string
}.

(** [{ data: { user, organization } }] *)
Record Created : Type := {
  data_user : CreatedUser;
  data_organization : CreatedOrganization
}.

(** [prisma.organization.findUnique({ where: { email } })]: the id of the row. *)
Definition organization_findUnique_email (db : Database) (email : string)
  : Result (option string) :=
  if organization_query_fails (prisma db) then Throw PrismaClientError
  else Ok (fst <$> find (fun row => String.eqb (snd row) email)
                        (organization_email db)).

(** [prisma.user.findFirst({ where: { userName } })] *)
Definition user_findFirst_userName (db : Database) (name : string)
  : Result (option User) :=
  if user_query_fails (prisma db) then Throw PrismaClientError
  else Ok (find (fun u => String.eqb (userName u) name) (user_table (prisma db))).

(** [prisma.role.findFirst({ where: { roleName } })] *)
Definition role_findFirst (db : Database) (name : string) : Result (option Role) :=
  if role_query_fails db then Throw PrismaClientError
  else Ok (find (fun r => String.eqb (roleName r) name) (role_table db)).

(** [prisma.user.create]: the new user holds the one role binding created
    with it and belongs to no office. *)
Definition user_create (db : Database) (row : User) : Result Database :=
  if user_query_fails (prisma db) then Throw PrismaClientError
  else Ok {| prisma :=
               {| user_table := user_table (prisma db) ++ [row];
                  organization_table := organization_table (prisma db);
                  user_query_fails := user_query_fails (prisma db);
                  organization_query_fails := organization_query_fails (prisma db) |};
             organization_email := organization_email db;
             role_table := role_table db;
             office_table := office_table db;
             bankAccount_table := bankAccount_table db;
             role_query_fails := role_query_fails db;
             office_query_fails := office_query_fails db;
             bankAccount_query_fails := bankAccount_query_fails db |}.

(** [prisma.organization.create] with its feature rows. *)
Definition organization_create (db : Database) (row : Organization) (email : string)
  : Result Database :=
  if organization_query_fails (prisma db) then Throw PrismaClientError
  else Ok {| prisma :=
               {| user_table := user_table (prisma db);
                  organization_table := organization_table (prisma db) ++ [row];
                  user_query_fails := user_query_fails (prisma db);
                  organization_query_fails := organization_query_fails (prisma db) |};
             organization_email := organization_email db ++ [(org_id row, email)];
             role_table := role_table db;
             office_table := office_table db;
             bankAccount_table := bankAccount_table db;
             role_query_fails := role_query_fails db;
             office_query_fails := office_query_fails db;
             bankAccount_query_fails := bankAccount_query_fails db |}.

(** The loop over [dto.office]: the n-th office is created under the
    organization with the key and the branch code assigned to it. *)
Fixpoint create_offices (db : Database) (assigned : nat -> Generated) (n : nat)
    (organizationId : string) (offices : list CreateOfficeDto) : Result Database :=
  match offices with
  | [] => Ok db
  | office :: rest =>
      created ← office_create db {| office_id := generated_id (assigned n);
                                    office_organizationId := organizationId;
                                    branchCode := generated_branchCode (assigned n);
                                    office_fields := office |};
      create_offices (fst created) assigned (S n) organizationId rest
  end.

(** The user row written by [create]: the one role binding created with it,
    and no office. *)
Definition new_user (env : Assigned) (dto : CreateOrganizationDto) (r : Role) : User :=
  {| user_id := assigned_user_id env;
     user_email := new_email dto;
     userName := new_userName dto;
     password := bcrypt_hash (new_password dto);
     userRoles := [ {| role := Some r |} ];
     userOffice := [] |}.

(** The organization row written by [create], with one feature row for each
    feature of the request. *)
Definition new_organization (env : Assigned) (features : list string) : Organization :=
  {| org_id := assigned_organization_id env;
     org_userId := assigned_user_id env;
     org_features := map (fun f => {| feature := f |}) features |}.

(** The three look-ups that precede the transaction find nothing. *)
Definition unregistered (db : Database) (dto : CreateOrganizationDto) : Prop :=
  organization_findUnique_email db (new_email dto) = Ok None /\
  user_findUnique_email (prisma db) (new_email dto) = Ok None /\
  user_findFirst_userName db (new_userName dto) = Ok None.

(** The callback of [prisma.$transaction]: its writes are kept together or
    not at all. *)
Definition create_transaction (db : Database) (env : Assigned)
    (dto : CreateOrganizationDto) (features : list string)
  : Attempt (Database * Created) :=
  and_then (awaited (role_findFirst db RolesEnum_organizationAdmin)) (fun found =>
  match found with
  | None =>
      Failed (Http (NotFoundException
                      (String.append "Role '"
                         (String.append RolesEnum_organizationAdmin "' not found"))))
  | Some r =>
      match rejected env with
      | Some target => Failed (KnownRequestError "P2002" target)
      | None =>
          let newUser := new_user env dto r in
          let organization := new_organization env features in
          and_then (awaited (user_create db newUser)) (fun db1 =>
          and_then (awaited (organization_create db1 organization (new_email dto)))
            (fun db2 =>
          and_then (awaited (create_offices db2 (assigned_office env) 0
                               (org_id organization)
                               (default [] (new_office dto)))) (fun db3 =>
          let userFeatures := feature_strings (org_features organization) in
          Done (db3,
                {| data_user :=
                     {| created_id := user_id newUser;
                        created_email := user_email newUser;
                        created_userName := userName newUser;
                        created_roleName :=
                          if truthy (roleName r) then roleName r
                          else "organizationAdmin";
                        created_organizationId := org_id organization;
                        created_features := userFeatures;
                        created_isSuperAdmin := false |};
                   data_organization :=
                     {| organization_id := org_id organization;
                        organization_name := organizationName (new_columns dto);
                        organization_features := userFeatures |} |}))))
      end
  end).

(** [error.message] *)
Definition thrown_message (error : Thrown) : string :=
  match error with
  | Http (NotFoundException m) | Http (UnauthorizedException m)
  | Http (ForbiddenException m) | Http (InternalServerErrorException m)
  | ConflictException m | PlainError m => m
  | _ => native_message error
  end.

(** [error.meta?.target?.[0] || 'unknown field'] *)
Definition violated_field (target : option (list string)) : string :=
  match target with
  | Some (field :: _) => if truthy field then field else "unknown field"
  | _ => "unknown field"
  end.

(** The [catch] of [create].  Its second pair of tests repeats the first
    and is never reached with an error the first pair let through. *)
Definition create_catch {A : Type} (error : Thrown) : Attempt A :=
  match error with
  | ConflictException _ | Http (NotFoundException _) => Failed error
  | _ =>
      match error with
      | KnownRequestError code target =>
          if String.eqb code "P2002"
          then Failed (ConflictException
                         (String.append (violated_field target) " already exists"))
          else Failed (Http (InternalServerErrorException
                               (if truthy (thrown_message error)
                                then thrown_message error
                                else "Failed to create organization")))
      | _ =>
          Failed (Http (InternalServerErrorException
                          (if truthy (thrown_message error)
                           then thrown_message error
                           else "Failed to create organization")))
      end
  end.

Definition create (db : Database) (env : Assigned) (dto : CreateOrganizationDto)
  : Attempt (Database * Created) :=
  match
    match new_features dto with
    | None | Some [] => Failed (PlainError "At least one feature must be provided")
    | Some features =>
        and_then (awaited (organization_findUnique_email db (new_email dto)))
          (fun existingOrgEmail =>
        and_then (awaited (user_findUnique_email (prisma db) (new_email dto)))
          (fun existingUserEmail =>
        and_then (awaited (user_findFirst_userName db (new_userName dto)))
          (fun existingUsername =>
        match existingOrgEmail, existingUserEmail, existingUsername with
        | Some _, _, _ =>
            Failed (ConflictException "Organization with this email already exists")
        | None, Some _, _ =>
            Failed (ConflictException "A user with this email already exists")
        | None, None, Some _ =>
            Failed (ConflictException "Username already exists")
        | None, None, None => create_transaction db env dto features
        end)))
    end
  with
  | Done result => Done result
  | Failed error => create_catch error
  end.

End Tables.

Arguments office_id {_ _} _.
Arguments office_organizationId {_ _} _.
Arguments branchCode {_ _} _.
Arguments office_fields {_ _} _.
Arguments account_id {_} _.
Arguments account_organizationId {_} _.
Arguments account_fields {_} _.
Arguments prisma {_ _ _} _.
Arguments organization_email {_ _ _} _.
Arguments role_table {_ _ _} _.
Arguments role_query_fails {_ _ _} _.
Arguments office_table {_ _ _} _.
Arguments bankAccount_table {_ _ _} _.
Arguments office_query_fails {_ _ _} _.
Arguments bankAccount_query_fails {_ _ _} _.
Arguments generated_id {_} _.
Arguments generated_branchCode {_} _.
Arguments organization_findUnique_id {_ _ _} db id.
Arguments office_findUnique_id {_ _ _} db id.
Arguments offices_of {_ _} organizationId rows.
Arguments accounts_of {_} organizationId rows.
Arguments office_findMany {_ _ _} db organizationId.
Arguments office_create {_ _ _} db row.
Arguments office_delete {_ _ _} db id.
Arguments bankAccount_findMany {_ _ _} db organizationId.
Arguments bankAccount_create {_ _ _} db row.
Arguments addOffice {_ _ _} db gen dto organizationId.
Arguments addBankAccount {_ _ _} db newId dto organizationId.
Arguments getOffices {_ _ _} db organizationId.
Arguments getAllBankAccounts {_ _ _} db organizationId.
Arguments deleteOffice {_ _ _} db officeId organizationId.
Arguments Done {A} value.
Arguments Failed {A} error.
Arguments new_columns {_ _} _.
Arguments new_email {_ _} _.
Arguments new_password {_ _} _.
Arguments new_userName {_ _} _.
Arguments new_features {_ _} _.
Arguments new_office {_ _} _.
Arguments assigned_user_id {_} _.
Arguments assigned_organization_id {_} _.
Arguments assigned_office {_} _ _.
Arguments rejected {_} _.
Arguments organization_findUnique_email {_ _ _} db email.
Arguments user_findFirst_userName {_ _ _} db name.
Arguments role_findFirst {_ _ _} db name.
Arguments user_create {_ _ _} db row.
Arguments organization_create {_ _ _} db row email.
Arguments create_offices {_ _ _} db assigned n organizationId offices.
Arguments new_user {_ _ _} bcrypt_hash env dto r.
Arguments new_organization {_} env features.
Arguments unregistered {_ _ _ _} db dto.
Arguments create_transaction {_ _ _ _} organizationName bcrypt_hash
  RolesEnum_organizationAdmin db env dto features.
Arguments create_catch native_message {A} error.
Arguments create {_ _ _ _} organizationName bcrypt_hash RolesEnum_organizationAdmin
  native_message db env dto.

End OrganizationService.

(** ** unnamed/part_002: the organization controller *)

Module OrganizationController.

(** The handlers of the controller. *)
Inductive Handler : Type :=
| create
| addOffice
| addBankAccount
| getOffices
| getAllBankAccounts
| deleteOffice
| findOne
| update
| remove.

Section Metadata.

(** The members of [RolesEnum] (common/enums/roles-enum) the controller uses. *)
Variable RolesEnum_superAdmin : string.
Variable RolesEnum_organizationAdmin : string.

(** What the reflector finds under [ROLES_KEY] for a handler: the arguments
    of its [@Roles(...)] decorator.  The class carries no [@Roles], so a
    handler without the decorator has no metadata. *)
Definition requiredRoles (h : Handler) : option (list string) :=
  match h with
  | create => None
  | addOffice | addBankAccount | getOffices | getAllBankAccounts | deleteOffice =>
      Some [RolesEnum_organizationAdmin]
  | findOne | update | remove => Some [RolesEnum_superAdmin]
  end.

End Metadata.

Record BaseResponseDto (T : Type) : Type := {
  success : bool;
  data : option T;
  message : string
}.

Arguments success {T} _.
Arguments data {T} _.
Arguments message {T} _.

Section Handlers.

Variable CreateOfficeDto : Type.
Variable CreateOrganizationBankAccountDto : Type.
Variable BranchCode : Type.

(** The [message] of an error that is not one of the Nest exceptions. *)
Variable native_message : Exception -> string.

(** [error.message] *)
Definition error_message (error : Exception) : string :=
  match error with
  | NotFoundException m | UnauthorizedException m
  | ForbiddenException m | InternalServerErrorException m => m
  | TypeError | PrismaClientError => native_message error
  end.

(** The body of the [addOffice] handler: the state of the tables it leaves
    and the body of the response. *)
Definition addOffice_handler
    (db : OrganizationService.Database
            CreateOfficeDto CreateOrganizationBankAccountDto BranchCode)
    (gen : OrganizationService.Generated BranchCode)
    (dto : CreateOfficeDto) (organizationId : string)
  : OrganizationService.Database
      CreateOfficeDto CreateOrganizationBankAccountDto BranchCode *
    BaseResponseDto
      (OrganizationService.Office CreateOfficeDto BranchCode * option Organization) :=
  match OrganizationService.addOffice db gen dto organizationId with
  | Ok (db', serviceResult) =>
      (db', {| success := true;
               data := Some serviceResult;
               message := "Office created successfully" |})
  | Throw error =>
      (db, {| success := false;
              data := None;
              message := if truthy (error_message error) then error_message error
                         else "Failed to create office" |})
  end.

End Handlers.

Arguments addOffice_handler {_ _ _} native_message db gen dto organizationId.

End OrganizationController.

(** ** unnamed/part_003: the user slice of the client store *)

Module UserSlice.

(** [payload.data] of a [loginSuccess] action: the token and the user of the
    login response; [None] is a missing [user]. *)
Record LoginData : Type := {
  data_token : JsValue;
  data_user : option JsObject
}.

(** The payload of [loginSuccess]; [None] is a missing [data]. *)
Record LoginPayload : Type := { payload_data : option LoginData }.

Record State : Type := {
  currentUser : option JsObject;
  token : JsValue;
  isFetching : bool;
  error : JsValue
}.

Definition initialState : State :=
  {| currentUser := None; token := JsNull; isFetching := false;
     error := JsBoolean false |}.

Inductive Action : Type :=
| loginStart
| loginSuccess (payload : option LoginPayload)
| loginFailure (payload : JsValue)
| signOut
| setToken (payload : JsValue)
| clearToken.

(** [a || b] *)
Definition js_or (a b : JsValue) : JsValue := if js_truthy a then a else b.

(** [{ ...user, features: user.features || [] }] followed by the assignment
    of [isSuperAdmin]. *)
Definition stored_user (u : JsObject) : JsObject :=
  <["isSuperAdmin" := js_or (js_get (Some u) "isSuperAdmin") (JsBoolean false)]>
    (<["features" := js_or (js_get (Some u) "features") (JsStringArray [])]> u).

(** The case reducers.  A reducer that throws leaves the store as it was:
    the draft it was mutating is dropped. *)
Definition reducer (state : State) (action : Action) : Result State :=
  match action with
  | loginStart =>
      Ok {| currentUser := currentUser state; token := token state;
            isFetching := true; error := JsBoolean false |}
  | loginSuccess payload =>
      match payload ≫= payload_data with
      | None =>
          Ok {| currentUser := currentUser state; token := token state;
                isFetching := false;
                error := JsString "Invalid login response" |}
      | Some d =>
          match data_user d with
          | None => Throw TypeError
          | Some u =>
              Ok {| currentUser := Some (stored_user u);
                    token := data_token d;
                    isFetching := false;
                    error := JsBoolean false |}
          end
      end
  | loginFailure payload =>
      Ok {| currentUser := None; token := JsNull; isFetching := false;
            error := js_or payload (JsBoolean true) |}
  | signOut =>
      Ok {| currentUser := None; token := JsNull; isFetching := false;
            error := JsBoolean false |}
  | setToken payload =>
      Ok {| currentUser := currentUser state; token := payload;
            isFetching := isFetching state; error := error state |}
  | clearToken =>
      Ok {| currentUser := currentUser state; token := JsNull;
            isFetching := isFetching state; error := error state |}
  end.

(** What every state of the store satisfies: it is fetching only while no
    error is recorded; the error is [false] or truthy; a current user
    carries truthy [features] and an [isSuperAdmin] that is [false] or
    truthy. *)
Definition consistent (state : State) : Prop :=
  (isFetching state = true -> error state = JsBoolean false) /\
  (error state = JsBoolean false \/ js_truthy (error state) = true) /\
  (forall u, currentUser state = Some u ->
     js_truthy (js_get (Some u) "features") = true /\
     (js_get (Some u) "isSuperAdmin" = JsBoolean false \/
      js_truthy (js_get (Some u) "isSuperAdmin") = true)).

(** The store after a sequence of dispatched actions; a dispatch that throws
    changes nothing. *)
Fixpoint dispatch_all (state : State) (actions : list Action) : State :=
  match actions with
  | [] => state
  | a :: rest =>
      match reducer state a with
      | Ok state' => dispatch_all state' rest
      | Throw _ => dispatch_all state rest
      end
  end.

End UserSlice.

(** ** Sample data of the organization service and of the client store *)

Module Fixture.

Abbreviation Office := (OrganizationService.Office string Z).
Abbreviation BankAccount := (OrganizationService.BankAccount string).
Abbreviation Database := (OrganizationService.Database string string Z).

Definition head_office : Office :=
  {| OrganizationService.office_id := "of-1";
     OrganizationService.office_organizationId := "org-1";
     OrganizationService.branchCode := 4410%Z;
     OrganizationService.office_fields := "Head office" |}.

Definition depot : Office :=
  {| OrganizationService.office_id := "of-2";
     OrganizationService.office_organizationId := "org-2";
     OrganizationService.branchCode := 7203%Z;
     OrganizationService.office_fields := "Depot" |}.

Definition payroll_account : BankAccount :=
  {| OrganizationService.account_id := "ba-1";
     OrganizationService.account_organizationId := "org-1";
     OrganizationService.account_fields := "Payroll" |}.

(** An account filed under an organization id that no organization has. *)
Definition stray_account : BankAccount :=
  {| OrganizationService.account_id := "ba-2";
     OrganizationService.account_organizationId := "org-9";
     OrganizationService.account_fields := "Closed" |}.

Definition db : Database :=
  {| OrganizationService.prisma := Sample.prisma;
     OrganizationService.organization_email :=
       [("org-1", "admin@acme.io"); ("org-2", "blank@acme.io")];
     OrganizationService.role_table :=
       [ {| roleName := "superAdmin" |}; {| roleName := "organizationAdmin" |} ];
     OrganizationService.office_table := [head_office; depot];
     OrganizationService.bankAccount_table := [payroll_account; stray_account];
     OrganizationService.role_query_fails := false;
     OrganizationService.office_query_fails := false;
     OrganizationService.bankAccount_query_fails := false |}.

(** The same tables while the office table cannot be queried. *)
Definition db_offices_down : Database :=
  {| OrganizationService.prisma := Sample.prisma;
     OrganizationService.organization_email :=
       [("org-1", "admin@acme.io"); ("org-2", "blank@acme.io")];
     OrganizationService.role_table :=
       [ {| roleName := "superAdmin" |}; {| roleName := "organizationAdmin" |} ];
     OrganizationService.office_table := [head_office; depot];
     OrganizationService.bankAccount_table := [payroll_account; stray_account];
     OrganizationService.role_query_fails := false;
     OrganizationService.office_query_fails := true;
     OrganizationService.bankAccount_query_fails := false |}.

Definition branch : OrganizationService.Generated Z :=
  {| OrganizationService.generated_id := "of-3";
     OrganizationService.generated_branchCode := 1592%Z |}.

Definition assigned : OrganizationService.Assigned Z :=
  {| OrganizationService.assigned_user_id := "u-new";
     OrganizationService.assigned_organization_id := "org-3";
     OrganizationService.assigned_office :=
       fun n => {| OrganizationService.generated_id :=
                     String.append "of-new-" (String (Ascii.ascii_of_nat (48 + n)) "");
                   OrganizationService.generated_branchCode := (2000 + Z.of_nat n)%Z |};
     OrganizationService.rejected := None |}.

Definition registration : OrganizationService.CreateOrganizationDto string string :=
  {| OrganizationService.new_columns := "Globex";
     OrganizationService.new_email := "owner@globex.io";
     OrganizationService.new_password := "hunter2";
     OrganizationService.new_userName := "owner";
     OrganizationService.new_features := Some ["payroll"; "dashboard"];
     OrganizationService.new_office := Some ["Plant"] |}.

Definition hash (plain : string) : string := String.append "h-" plain.

Definition client_message (error : OrganizationService.Thrown) : string :=
  "Can't reach database server".

Definition runtime_message (error : Exception) : string :=
  "Can't reach database server".

(** The user of a login response as the client receives it. *)
Definition response_user : JsObject :=
  {[ "id" := JsString "u-admin";
     "email" := JsString "admin@acme.io";
     "userName" := JsString "admin";
     "role" := JsString "organizationAdmin";
     "organizationId" := JsString "org-1";
     "features" := JsStringArray ["payroll"; "reports"];
     "isSuperAdmin" := JsBoolean false ]}.

End Fixture.

(** ** Basic facts *)

Lemma truthy_true (s : string) : truthy s = true <-> s <> "".
Proof.
  unfold truthy. rewrite negb_true_iff. apply String.eqb_neq.
Qed.

Lemma truthy_false (s : string) : truthy s = false <-> s = "".
Proof.
  unfold truthy. rewrite negb_false_iff. apply String.eqb_eq.
Qed.

Lemma filter_Boolean_id (l : list string) :
  Forall (fun s => s <> "") l -> filter_Boolean l = l.
Proof.
  induction 1 as [|s l Hs _ IH]; simpl; [reflexivity|].
  apply truthy_true in Hs. rewrite Hs. f_equal. exact IH.
Qed.

Lemma user_findUnique_id_found (prisma : PrismaService) (i : string) (u : User) :
  user_findUnique_id prisma i = Ok (Some u) -> user_id u = i.
Proof.
  unfold user_findUnique_id. destruct (user_query_fails prisma); [discriminate|].
  intros [= H]. apply find_some in H as [_ H]. now apply String.eqb_eq.
Qed.

(** [some] answers [true] as soon as a superAdmin binding exists among loaded rows. *)
Lemma some_superAdmin_true (rows : list UserRole) :
  Forall (fun ur => role ur <> None) rows ->
  Exists superAdmin_row rows ->
  JwtStrategy.some_superAdmin rows = Ok true.
Proof.
  induction 1 as [|ur rows Hur _ IH]; intros Hex.
  - inversion Hex.
  - simpl. destruct (role ur) as [r|] eqn:Er; [|congruence].
    destruct (String.eqb (roleName r) "superAdmin") eqn:En; [reflexivity|].
    apply IH. inversion Hex as [? ? [r' [Hr' Hn]]|]; subst; [|assumption].
    rewrite Er in Hr'. injection Hr' as <-.
    apply String.eqb_neq in En. contradiction.
Qed.

(** [some] answers [false] exactly on loaded rows none of which is superAdmin. *)
Lemma some_superAdmin_false (rows : list UserRole) :
  JwtStrategy.some_superAdmin rows = Ok false <->
  Forall (fun ur => role ur <> None) rows /\ ~ Exists superAdmin_row rows.
Proof.
  induction rows as [|ur rows IH]; simpl.
  - split; [intros _; split; [constructor | inversion 1] | reflexivity].
  - destruct (role ur) as [r|] eqn:Er.
    + destruct (String.eqb (roleName r) "superAdmin") eqn:En.
      * split; [discriminate|]. intros [_ Hn]. exfalso. apply Hn.
        constructor. exists r. split; [assumption | now apply String.eqb_eq].
      * rewrite IH. apply String.eqb_neq in En. split.
        -- intros [Hl Hn]. split; [constructor; [congruence | assumption]|].
           inversion 1 as [? ? [r' [Hr' Hs]]|]; subst; [|contradiction].
           rewrite Er in Hr'. injection Hr' as <-. contradiction.
        -- intros [Hl Hn]. inversion Hl; subst. split; [assumption|].
           intros Hex. apply Hn. now constructor 2.
    + split; [discriminate|]. intros [Hl _]. inversion Hl; subst. congruence.
Qed.

(** Once [some] has answered, the first binding is loaded and the role can
    be read. *)
Lemma first_roleName_after_some (u : User) (b : bool) :
  JwtStrategy.some_superAdmin (userRoles u) = Ok b ->
  exists r, first_roleName u = Ok r.
Proof.
  unfold first_roleName. destruct (userRoles u) as [|ur rest]; simpl.
  - intros _. now exists "user".
  - destruct (role ur) as [r|]; [|discriminate]. intros _. eauto.
Qed.

(** A user whose first binding is superAdmin resolves to role superAdmin. *)
Lemma first_roleName_superAdmin (u : User) :
  first_binding_superAdmin u -> first_roleName u = Ok "superAdmin".
Proof.
  intros (ur & rest & Hrows & r & Hr & Hn). unfold first_roleName.
  rewrite Hrows, Hr, Hn. reflexivity.
Qed.

(** A user without superAdmin binding never resolves to role superAdmin. *)
Lemma first_roleName_plain (u : User) (r : string) :
  ~ has_superAdmin_binding u -> first_roleName u = Ok r ->
  String.eqb r "superAdmin" = false.
Proof.
  unfold has_superAdmin_binding, first_roleName. intros Hn.
  destruct (userRoles u) as [|ur rest]; [intros [= <-]; reflexivity|].
  destruct (role ur) as [r0|] eqn:Er; [|discriminate].
  intros [= <-]. destruct (truthy (roleName r0)); [|reflexivity].
  apply String.eqb_neq. intros Hs. apply Hn. constructor. now exists r0.
Qed.

(** ** Claims resolution *)

Section Resolution.

Variable ALL_FEATURES : list string.
Variable prisma : PrismaService.

(** Whatever goes wrong inside [generateTokenPayload], its [catch] throws the
    same InternalServerError. *)
Lemma generateTokenPayload_throws (userId : string) (e : Exception) :
  AuthService.generateTokenPayload ALL_FEATURES prisma userId = Throw e ->
  e = InternalServerErrorException "Error generating auth token".
Proof.
  unfold AuthService.generateTokenPayload, try_catch.
  destruct (_ ≫= _); [discriminate | now intros [= <-]].
Qed.

Lemma generateTokenPayload_superAdmin (userId : string) (u : User) :
  user_findUnique_id prisma userId = Ok (Some u) ->
  first_binding_superAdmin u ->
  AuthService.generateTokenPayload ALL_FEATURES prisma userId
  = Ok (superAdmin_payload ALL_FEATURES u).
Proof.
  intros Hu Hf. unfold AuthService.generateTokenPayload.
  rewrite Hu. simpl. rewrite (first_roleName_superAdmin u Hf). reflexivity.
Qed.

Lemma generateTokenPayload_rev_superAdmin (userId : string) (u : User) :
  user_findUnique_id prisma userId = Ok (Some u) ->
  first_binding_superAdmin u ->
  AuthServiceRev.generateTokenPayload ALL_FEATURES prisma userId
  = Ok (superAdmin_payload ALL_FEATURES u).
Proof.
  intros Hu Hf. unfold AuthServiceRev.generateTokenPayload.
  rewrite Hu. simpl. rewrite (first_roleName_superAdmin u Hf). reflexivity.
Qed.

(** The payload resolved for a user without superAdmin binding whose first
    office carries the organization [o]. *)
Lemma generateTokenPayload_member (userId : string) (u : User) (o : Organization) :
  user_findUnique_id prisma userId = Ok (Some u) ->
  roles_loaded u ->
  ~ has_superAdmin_binding u ->
  first_organization u = Some o ->
  exists r,
    first_roleName u = Ok r /\
    AuthService.generateTokenPayload ALL_FEATURES prisma userId
    = Ok {| sub := user_id u;
            email := user_email u;
            payload_role := r;
            organizationId := Some (org_id o);
            features := filter_Boolean (feature_strings (org_features o));
            isSuperAdmin := false |}.
Proof.
  intros Hu Hl Hn Ho.
  assert (Hs : JwtStrategy.some_superAdmin (userRoles u) = Ok false)
    by (apply some_superAdmin_false; split; assumption).
  destruct (first_roleName_after_some u false Hs) as [r Hr].
  exists r. split; [assumption|].
  unfold AuthService.generateTokenPayload. rewrite Hu. simpl. rewrite Hr. simpl.
  rewrite (first_roleName_plain u r Hn Hr), Ho. reflexivity.
Qed.

End Resolution.

(** ** Credential validation *)

Section Validation.

Variable prisma : PrismaService.

(** [validate] throws nothing but Unauthorized. *)
Lemma validate_throws (payload : JwtStrategy.DecodedPayload) (e : Exception) :
  JwtStrategy.validate prisma payload = Throw e ->
  exists message, e = UnauthorizedException message.
Proof.
  unfold JwtStrategy.validate, try_catch.
  match goal with |- context [match ?b with _ => _ end] => destruct b as [p|e'] end;
    [discriminate|].
  destruct e'; intros [= <-]; eauto.
Qed.

(** The principal validated for a well-formed payload whose user either
    holds a superAdmin binding or is bound to an organization. *)
Lemma validate_principal (payload : JwtStrategy.DecodedPayload) (u : User)
    (superAdmin : bool) :
  truthy (JwtStrategy.dp_sub payload) = true ->
  truthy (JwtStrategy.dp_email payload) = true ->
  user_findUnique_id prisma (JwtStrategy.dp_sub payload) = Ok (Some u) ->
  JwtStrategy.some_superAdmin (userRoles u) = Ok superAdmin ->
  superAdmin || truthy_opt (org_id <$> first_organization u) = true ->
  exists r,
    first_roleName u = Ok r /\
    JwtStrategy.validate prisma payload
    = Ok {| JwtStrategy.p_id := user_id u;
            JwtStrategy.p_email := user_email u;
            JwtStrategy.p_organizationId := org_id <$> first_organization u;
            JwtStrategy.p_features :=
              match first_organization u with
              | Some o => feature_strings (org_features o)
              | None => []
              end;
            JwtStrategy.p_isSuperAdmin := superAdmin;
            JwtStrategy.p_role := r |}.
Proof.
  intros Hsub Hemail Hu Hs Hacc.
  destruct (first_roleName_after_some u superAdmin Hs) as [r Hr].
  exists r. split; [assumption|].
  unfold JwtStrategy.validate. rewrite Hsub, Hemail, Hu. simpl.
  rewrite Hs. simpl.
  replace (negb superAdmin && negb (truthy_opt (org_id <$> first_organization u)))
    with false
    by (rewrite <- negb_orb, Hacc; reflexivity).
  rewrite Hr. reflexivity.
Qed.

(** The claims of the token are never read: only [sub] and [email] decide. *)
Lemma validate_ignores_claims (t1 t2 : JwtStrategy.DecodedPayload) :
  JwtStrategy.dp_sub t1 = JwtStrategy.dp_sub t2 ->
  JwtStrategy.dp_email t1 = JwtStrategy.dp_email t2 ->
  JwtStrategy.validate prisma t1 = JwtStrategy.validate prisma t2.
Proof.
  intros Hsub Hemail. unfold JwtStrategy.validate. now rewrite Hsub, Hemail.
Qed.

End Validation.

(** ** Superadmin claims *)

(** C1, as stated, fails: [Sample.promoted] holds a superAdmin role binding
    behind an organizationAdmin one; the resolved payload takes the role of
    the first binding, so [isSuperAdmin] is false, [organizationId] is set and
    [features] are those of the organization, not the catalog. *)
Lemma superAdmin_binding_not_first_counterexample :
  has_superAdmin_binding Sample.promoted /\
  AuthService.generateTokenPayload Sample.catalog Sample.prisma "u-prom"
  = Ok {| sub := "u-prom";
          email := "prom@gms.io";
          payload_role := "organizationAdmin";
          organizationId := Some "org-1";
          features := ["payroll"; "reports"];
          isSuperAdmin := false |}.
Proof.
  split; [|reflexivity].
  unfold has_superAdmin_binding. simpl. constructor 2. constructor.
  eexists. split; reflexivity.
Qed.

(** C1 (amended): for every user whose first role binding is superAdmin,
    claims resolution (in both revisions of the service) yields a payload with
    [isSuperAdmin = true], no [organizationId] and [features = ALL_FEATURES];
    and validation of a payload that carries the user's id and an email
    yields a principal with [isSuperAdmin = true]. *)
Theorem superAdmin_first_binding_claims
    (ALL_FEATURES : list string) (prisma : PrismaService)
    (userId : string) (u : User) :
  user_findUnique_id prisma userId = Ok (Some u) ->
  first_binding_superAdmin u ->
  (exists payload,
     AuthService.generateTokenPayload ALL_FEATURES prisma userId = Ok payload /\
     AuthServiceRev.generateTokenPayload ALL_FEATURES prisma userId = Ok payload /\
     isSuperAdmin payload = true /\
     organizationId payload = None /\
     features payload = ALL_FEATURES) /\
  (forall token : JwtStrategy.DecodedPayload,
     JwtStrategy.dp_sub token = userId ->
     truthy (JwtStrategy.dp_sub token) = true ->
     truthy (JwtStrategy.dp_email token) = true ->
     exists p,
       JwtStrategy.validate prisma token = Ok p /\
       JwtStrategy.p_isSuperAdmin p = true).
Proof.
  intros Hu Hf. split.
  - exists (superAdmin_payload ALL_FEATURES u).
    rewrite (generateTokenPayload_superAdmin _ _ _ _ Hu Hf).
    rewrite (generateTokenPayload_rev_superAdmin _ _ _ _ Hu Hf).
    repeat split.
  - intros token Hsub Ht He. rewrite <- Hsub in Hu.
    assert (Hs : JwtStrategy.some_superAdmin (userRoles u) = Ok true).
    { destruct Hf as (ur & rest & Hrows & r & Hr & Hn).
      rewrite Hrows. simpl. rewrite Hr, Hn. reflexivity. }
    destruct (validate_principal prisma token u true Ht He Hu Hs eq_refl)
      as (r & _ & Hv).
    eexists. split; [exact Hv | reflexivity].
Qed.

Lemma superAdmin_first_binding_claims_witness :
  user_findUnique_id Sample.prisma "u-root" = Ok (Some Sample.root) /\
  first_binding_superAdmin Sample.root /\
  (exists payload,
     AuthService.generateTokenPayload Sample.catalog Sample.prisma "u-root"
     = Ok payload /\
     AuthServiceRev.generateTokenPayload Sample.catalog Sample.prisma "u-root"
     = Ok payload /\
     isSuperAdmin payload = true /\
     organizationId payload = None /\
     features payload = Sample.catalog) /\
  (exists p,
     JwtStrategy.validate Sample.prisma (Sample.bearer Sample.root) = Ok p /\
     JwtStrategy.p_isSuperAdmin p = true).
Proof.
  assert (Hu : user_findUnique_id Sample.prisma "u-root" = Ok (Some Sample.root))
    by reflexivity.
  assert (Hf : first_binding_superAdmin Sample.root).
  { eexists _, _. split; [reflexivity|]. eexists. split; reflexivity. }
  destruct (superAdmin_first_binding_claims Sample.catalog Sample.prisma
              "u-root" Sample.root Hu Hf) as [Hres Hval].
  split; [exact Hu|]. split; [exact Hf|]. split; [exact Hres|].
  apply (Hval (Sample.bearer Sample.root)); reflexivity.
Defined.

(** The validator itself never reads the catalog nor clears the organization:
    for the superadmin [Sample.root], who has no office, the validated
    features are empty. *)
Lemma validate_superAdmin_without_catalog :
  JwtStrategy.validate Sample.prisma (Sample.bearer Sample.root)
  = Ok {| JwtStrategy.p_id := "u-root";
          JwtStrategy.p_email := "root@gms.io";
          JwtStrategy.p_organizationId := None;
          JwtStrategy.p_features := [];
          JwtStrategy.p_isSuperAdmin := true;
          JwtStrategy.p_role := "superAdmin" |}.
Proof. reflexivity. Qed.

(** ** Round trip *)

(** C2, as stated, fails: for the orphaned account [Sample.orphan] the
    resolution succeeds, while validating the credential issued from it is
    refused, so no principal equal to the resolved one comes back. *)
Lemma round_trip_orphan_counterexample :
  exists payload,
    AuthService.generateTokenPayload Sample.catalog Sample.prisma "u-orphan"
    = Ok payload /\
    JwtStrategy.validate Sample.prisma
      (JwtStrategy.decoded payload 1700000000 1700003600)
    = Throw (UnauthorizedException "User has no organization access").
Proof.
  eexists. split; reflexivity.
Qed.

(** C2 (amended): for every user with a non-empty id and email, whose role
    bindings are loaded and hold no superAdmin one, and whose first office
    carries an organization with a non-empty id and non-empty feature strings,
    validating the credential issued from a fresh resolution succeeds with a
    principal that has the role, organizationId, features and isSuperAdmin of
    the resolved payload, and the sub and email of the token. *)
Theorem validate_issue_resolve
    (ALL_FEATURES : list string) (prisma : PrismaService)
    (userId : string) (u : User) (o : Organization) (iat exp : Z) :
  user_findUnique_id prisma userId = Ok (Some u) ->
  truthy (user_id u) = true ->
  truthy (user_email u) = true ->
  roles_loaded u ->
  ~ has_superAdmin_binding u ->
  first_organization u = Some o ->
  truthy (org_id o) = true ->
  Forall (fun f => feature f <> "") (org_features o) ->
  exists payload p,
    AuthService.generateTokenPayload ALL_FEATURES prisma userId = Ok payload /\
    JwtStrategy.validate prisma (JwtStrategy.decoded payload iat exp) = Ok p /\
    same_claims p payload.
Proof.
  intros Hu Hid Hemail Hl Hn Ho Hoid Hf.
  destruct (generateTokenPayload_member ALL_FEATURES prisma userId u o Hu Hl Hn Ho)
    as (r & Hr & Hgen).
  assert (Hs : JwtStrategy.some_superAdmin (userRoles u) = Ok false)
    by (apply some_superAdmin_false; split; assumption).
  pose proof (user_findUnique_id_found prisma userId u Hu) as Hsame.
  eexists. 
  destruct (validate_principal prisma
              (JwtStrategy.decoded
                 {| sub := user_id u; email := user_email u; payload_role := r;
                    organizationId := Some (org_id o);
                    features := filter_Boolean (feature_strings (org_features o));
                    isSuperAdmin := false |} iat exp) u false)
    as (r' & Hr' & Hv); simpl; try assumption.
  - rewrite Hsame. exact Hu.
  - rewrite Ho. simpl. exact Hoid.
  - eexists. split; [exact Hgen|]. split; [exact Hv|].
    rewrite Hr in Hr'. injection Hr' as <-.
    unfold same_claims. simpl. rewrite Ho. simpl.
    repeat split. symmetry. apply filter_Boolean_id.
    unfold feature_strings. apply Forall_map. exact Hf.
Qed.

Lemma validate_issue_resolve_witness :
  user_findUnique_id Sample.prisma "u-admin" = Ok (Some Sample.admin) /\
  roles_loaded Sample.admin /\
  ~ has_superAdmin_binding Sample.admin /\
  first_organization Sample.admin = Some Sample.acme /\
  exists payload p,
    AuthService.generateTokenPayload Sample.catalog Sample.prisma "u-admin"
    = Ok payload /\
    JwtStrategy.validate Sample.prisma
      (JwtStrategy.decoded payload 1700000000 1700003600) = Ok p /\
    same_claims p payload.
Proof.
  assert (Hl : roles_loaded Sample.admin)
    by (repeat constructor; discriminate).
  assert (Hn : ~ has_superAdmin_binding Sample.admin).
  { intros H. inversion H as [? ? [r [Hr Hs]]|? ? H']; subst;
      [injection Hr as <-; discriminate | inversion H']. }
  split; [reflexivity|]. split; [exact Hl|]. split; [exact Hn|].
  split; [reflexivity|].
  apply (validate_issue_resolve Sample.catalog Sample.prisma "u-admin"
           Sample.admin Sample.acme);
    try reflexivity; try assumption.
  repeat constructor; discriminate.
Defined.

(** ** Missing user *)

(** C3: the code does not do what the claim says.  When the user record does
    not exist, [generateTokenPayload] raises NotFound inside its own [try];
    its [catch] replaces it, so the caller receives an InternalServerError
    (in both revisions of the service). *)
Theorem generateTokenPayload_missing_user
    (ALL_FEATURES : list string) (prisma : PrismaService) (userId : string) :
  user_findUnique_id prisma userId = Ok None ->
  AuthService.generateTokenPayload ALL_FEATURES prisma userId
  = Throw (InternalServerErrorException "Error generating auth token") /\
  AuthServiceRev.generateTokenPayload ALL_FEATURES prisma userId
  = Throw (InternalServerErrorException "Error generating auth token").
Proof.
  intros Hu.
  unfold AuthService.generateTokenPayload, AuthServiceRev.generateTokenPayload.
  rewrite Hu. split; reflexivity.
Qed.

Lemma generateTokenPayload_missing_user_witness :
  user_findUnique_id Sample.prisma "u-nobody" = Ok None /\
  AuthService.generateTokenPayload Sample.catalog Sample.prisma "u-nobody"
  = Throw (InternalServerErrorException "Error generating auth token") /\
  AuthServiceRev.generateTokenPayload Sample.catalog Sample.prisma "u-nobody"
  = Throw (InternalServerErrorException "Error generating auth token").
Proof.
  split; [reflexivity|].
  apply (generateTokenPayload_missing_user Sample.catalog Sample.prisma "u-nobody").
  reflexivity.
Defined.

(** At the boundary of [login] a failed resolution is an InternalServerError
    as well: the error of [generateTokenPayload] is neither NotFound nor
    Unauthorized, and the [catch] of [login] replaces it. *)
Lemma login_resolution_failure
    (ALL_FEATURES : list string) (jwt_sign : JwtPayload -> string)
    (bcrypt_compare : string -> string -> bool)
    (prisma : PrismaService) (dto : LoginDto) (u : User) (e : Exception) :
  user_findUnique_email prisma (dto_email dto) = Ok (Some u) ->
  bcrypt_compare (dto_password dto) (password u) = true ->
  AuthService.generateTokenPayload ALL_FEATURES prisma (user_id u) = Throw e ->
  AuthService.login ALL_FEATURES jwt_sign bcrypt_compare prisma dto
  = Throw (InternalServerErrorException "Login failed").
Proof.
  intros Hu Hpw Hgen. unfold AuthService.login. rewrite Hu. simpl.
  rewrite Hpw. simpl. rewrite Hgen.
  apply generateTokenPayload_throws in Hgen. subst e. reflexivity.
Qed.

(** At the boundary of [signup] the error is the one [generateTokenPayload]
    threw: [signup] rethrows what it catches. *)
Lemma signup_missing_user
    (ALL_FEATURES : list string) (jwt_sign : JwtPayload -> string)
    (CreateUserDto : Type)
    (userService_create :
       PrismaService -> CreateUserDto -> Result (PrismaService * User))
    (prisma prisma' : PrismaService) (dto : CreateUserDto) (u : User) :
  userService_create prisma dto = Ok (prisma', u) ->
  user_findUnique_id prisma' (user_id u) = Ok None ->
  AuthService.signup ALL_FEATURES jwt_sign CreateUserDto userService_create prisma dto
  = Throw (InternalServerErrorException "Error generating auth token").
Proof.
  intros Hc Hu. unfold AuthService.signup, AuthService.generateTokenPayload.
  rewrite Hc. simpl. rewrite Hu. reflexivity.
Qed.

(** ** Access-control gate *)

Section Gate.

Import RolesGuard.

Lemma js_includes_role_in (roles : list string) (v : JsValue) :
  js_includes roles v = true <-> role_in roles v.
Proof.
  unfold role_in. destruct v as [| |b|s|l]; simpl;
    try (split; [discriminate | intros (s' & [=] & _)]).
  rewrite existsb_exists. split.
  - intros (x & Hin & Heq). apply String.eqb_eq in Heq. subst x. eauto.
  - intros (s' & [= <-] & Hin). exists s. split; [assumption | apply String.eqb_refl].
Qed.

Lemma is_organizationAdmin_true (v : JsValue) :
  is_organizationAdmin v = true <-> v = JsString "organizationAdmin".
Proof.
  destruct v as [| |b|s|l]; simpl; try (split; discriminate).
  rewrite String.eqb_eq. split; [now intros -> | now intros [= ->]].
Qed.

(** The gate past its first test, for a non-empty list of required roles. *)
Lemma canActivate_required (roles : list string) (request : Request) :
  roles <> [] ->
  canActivate (Some roles) request
  = let u := req_user request in
    if negb (js_truthy (js_get u "userId")) || negb (js_truthy (js_get u "roleName"))
    then Throw (ForbiddenException "Missing userId or roleName in token")
    else if is_organizationAdmin (js_get u "roleName")
    then
      if negb (js_truthy (req_organizationId request))
      then Throw (ForbiddenException "Organization context missing")
      else Ok true
    else if negb (js_includes roles (js_get u "roleName"))
    then Throw (ForbiddenException
                  (String.append "Access denied. Required roles: "
                                 (String.concat ", " roles)))
    else Ok true.
Proof.
  destruct roles; [congruence | reflexivity].
Qed.

End Gate.

(** ** Organization-admin bypass *)

(** C4, as stated, fails: an organizationAdmin principal that carries no
    [userId] is refused although an organization context is attached. *)
Lemma bypass_without_userId_counterexample :
  RolesGuard.canActivate (Some ["superAdmin"])
    {| RolesGuard.req_user :=
         Some {[ "roleName" := JsString "organizationAdmin";
                 "email" := JsString "admin@acme.io" ]};
       RolesGuard.req_organizationId := JsString "org-1" |}
  = Throw (ForbiddenException "Missing userId or roleName in token").
Proof. reflexivity. Qed.

(** C4 (amended): for every non-empty list of required roles, also the one
    that holds superAdmin alone, a principal that carries a [userId] and whose
    [roleName] is organizationAdmin is allowed whenever an [organizationId] is
    attached to the request. *)
Theorem organizationAdmin_bypass (roles : list string) (request : RolesGuard.Request) :
  roles <> [] ->
  js_truthy (js_get (RolesGuard.req_user request) "userId") = true ->
  js_get (RolesGuard.req_user request) "roleName" = JsString "organizationAdmin" ->
  js_truthy (RolesGuard.req_organizationId request) = true ->
  RolesGuard.canActivate (Some roles) request = Ok true.
Proof.
  intros Hroles Hid Hrole Hctx.
  rewrite canActivate_required by assumption. simpl.
  rewrite Hid, Hrole, Hctx. reflexivity.
Qed.

Lemma organizationAdmin_bypass_witness :
  RolesGuard.canActivate (Some ["superAdmin"])
    {| RolesGuard.req_user :=
         Some {[ "userId" := JsString "u-admin";
                 "roleName" := JsString "organizationAdmin" ]};
       RolesGuard.req_organizationId := JsString "org-1" |}
  = Ok true.
Proof.
  apply (organizationAdmin_bypass ["superAdmin"]); [discriminate | reflexivity ..].
Defined.

(** C5, as stated, fails: with an empty [userId] the organizationAdmin
    principal is refused even though the organization context is attached. *)
Lemma organizationAdmin_empty_userId_counterexample :
  RolesGuard.canActivate (Some ["organizationAdmin"])
    {| RolesGuard.req_user :=
         Some {[ "userId" := JsString "";
                 "roleName" := JsString "organizationAdmin" ]};
       RolesGuard.req_organizationId := JsString "org-1" |}
  = Throw (ForbiddenException "Missing userId or roleName in token").
Proof. reflexivity. Qed.

(** C5 (amended): for every principal that carries a [userId] and whose role
    is organizationAdmin, and every non-empty list of required roles, the gate
    allows if and only if an organization context is attached to the request;
    without it the gate throws Forbidden, "Organization context missing". *)
Theorem organizationAdmin_needs_context
    (roles : list string) (request : RolesGuard.Request) :
  roles <> [] ->
  js_truthy (js_get (RolesGuard.req_user request) "userId") = true ->
  js_get (RolesGuard.req_user request) "roleName" = JsString "organizationAdmin" ->
  (RolesGuard.canActivate (Some roles) request = Ok true <->
   js_truthy (RolesGuard.req_organizationId request) = true) /\
  (js_truthy (RolesGuard.req_organizationId request) = false ->
   RolesGuard.canActivate (Some roles) request
   = Throw (ForbiddenException "Organization context missing")).
Proof.
  intros Hroles Hid Hrole.
  rewrite canActivate_required by assumption. simpl.
  rewrite Hid, Hrole. simpl.
  destruct (js_truthy (RolesGuard.req_organizationId request)); simpl.
  - split; [tauto | discriminate].
  - split; [split; discriminate | reflexivity].
Qed.

Lemma organizationAdmin_needs_context_witness :
  RolesGuard.canActivate (Some ["organizationAdmin"])
    {| RolesGuard.req_user :=
         Some {[ "userId" := JsString "u-admin";
                 "roleName" := JsString "organizationAdmin" ]};
       RolesGuard.req_organizationId := JsUndefined |}
  = Throw (ForbiddenException "Organization context missing").
Proof.
  apply (organizationAdmin_needs_context ["organizationAdmin"]);
    [discriminate | reflexivity ..].
Defined.

(** ** Orphaned accounts *)

Lemma some_superAdmin_true_binding (rows : list UserRole) :
  JwtStrategy.some_superAdmin rows = Ok true -> Exists superAdmin_row rows.
Proof.
  induction rows as [|ur rows IH]; simpl; [discriminate|].
  destruct (role ur) as [r|] eqn:Er; [|discriminate].
  destruct (String.eqb (roleName r) "superAdmin") eqn:En.
  - intros _. constructor. exists r. split; [assumption | now apply String.eqb_eq].
  - intros H. constructor 2. now apply IH.
Qed.

(** C6: for every decoded credential whose subject user exists, holds no
    superAdmin binding and has no organization with a usable id behind its
    first office, validation returns no principal and throws Unauthorized;
    when the payload carries [sub] and [email] and the role bindings are
    loaded, it is the "User has no organization access" one. *)
Theorem validate_orphan_unauthorized
    (prisma : PrismaService) (token : JwtStrategy.DecodedPayload) (u : User) :
  user_findUnique_id prisma (JwtStrategy.dp_sub token) = Ok (Some u) ->
  ~ has_superAdmin_binding u ->
  truthy_opt (org_id <$> first_organization u) = false ->
  (exists message,
     JwtStrategy.validate prisma token = Throw (UnauthorizedException message)) /\
  (truthy (JwtStrategy.dp_sub token) = true ->
   truthy (JwtStrategy.dp_email token) = true ->
   roles_loaded u ->
   JwtStrategy.validate prisma token
   = Throw (UnauthorizedException "User has no organization access")).
Proof.
  intros Hu Hn Horg. split.
  - unfold JwtStrategy.validate.
    destruct (negb (truthy (JwtStrategy.dp_sub token))
              || negb (truthy (JwtStrategy.dp_email token))); simpl; [eauto|].
    rewrite Hu. simpl.
    destruct (JwtStrategy.some_superAdmin (userRoles u)) as [[|]|e] eqn:Hs; simpl.
    + exfalso. apply Hn. now apply some_superAdmin_true_binding.
    + rewrite Horg. simpl. eauto.
    + destruct e; simpl; eauto.
  - intros Hsub Hemail Hl.
    assert (Hs : JwtStrategy.some_superAdmin (userRoles u) = Ok false)
      by (apply some_superAdmin_false; split; assumption).
    unfold JwtStrategy.validate. rewrite Hsub, Hemail, Hu. simpl.
    rewrite Hs. simpl. rewrite Horg. reflexivity.
Qed.

Lemma validate_orphan_unauthorized_witness :
  user_findUnique_id Sample.prisma "u-orphan" = Ok (Some Sample.orphan) /\
  ~ has_superAdmin_binding Sample.orphan /\
  first_organization Sample.orphan = None /\
  JwtStrategy.validate Sample.prisma (Sample.bearer Sample.orphan)
  = Throw (UnauthorizedException "User has no organization access").
Proof.
  assert (Hn : ~ has_superAdmin_binding Sample.orphan).
  { intros H. inversion H as [? ? [r [Hr Hs]]|? ? H']; subst;
      [injection Hr as <-; discriminate | inversion H']. }
  split; [reflexivity|]. split; [exact Hn|]. split; [reflexivity|].
  apply (validate_orphan_unauthorized Sample.prisma (Sample.bearer Sample.orphan)
           Sample.orphan);
    try reflexivity; try assumption.
  repeat constructor; discriminate.
Defined.

(** ** The validated principal at the gate *)

(** C7: the object returned by [validate] names its fields [id] and [role];
    the gate reads [userId] and [roleName], finds neither, and for every
    non-empty list of required roles throws Forbidden, "Missing userId or
    roleName in token", whatever the role and the organization context. *)
Theorem validated_principal_refused
    (prisma : PrismaService) (token : JwtStrategy.DecodedPayload)
    (p : JwtStrategy.Principal) (roles : list string) (context : JsValue) :
  JwtStrategy.validate prisma token = Ok p ->
  roles <> [] ->
  RolesGuard.canActivate (Some roles)
    {| RolesGuard.req_user := Some (JwtStrategy.request_user p);
       RolesGuard.req_organizationId := context |}
  = Throw (ForbiddenException "Missing userId or roleName in token").
Proof.
  intros _ Hroles. rewrite canActivate_required by assumption. reflexivity.
Qed.

Lemma validated_principal_refused_witness :
  exists p,
    JwtStrategy.validate Sample.prisma (Sample.bearer Sample.admin) = Ok p /\
    JwtStrategy.p_role p = "organizationAdmin" /\
    RolesGuard.canActivate (Some ["organizationAdmin"])
      {| RolesGuard.req_user := Some (JwtStrategy.request_user p);
         RolesGuard.req_organizationId := JsString "org-1" |}
    = Throw (ForbiddenException "Missing userId or roleName in token").
Proof.
  eexists. split; [reflexivity|]. split; [reflexivity|].
  apply (validated_principal_refused Sample.prisma (Sample.bearer Sample.admin));
    [reflexivity | discriminate].
Defined.

(** ** Features of an organization member *)

(** C8: the code does not do what the claim says.  [Sample.blank_admin] holds
    no superAdmin binding and is bound to an organization whose feature rows
    are the empty string and "payroll": the resolution filters the empty
    string out, the validation returns it. *)
Theorem validate_keeps_empty_feature :
  first_organization Sample.blank_admin = Some Sample.blanks /\
  feature_strings (org_features Sample.blanks) = [""; "payroll"] /\
  AuthService.generateTokenPayload Sample.catalog Sample.prisma "u-blank"
  = Ok {| sub := "u-blank";
          email := "blank@acme.io";
          payload_role := "organizationAdmin";
          organizationId := Some "org-2";
          features := ["payroll"];
          isSuperAdmin := false |} /\
  JwtStrategy.validate Sample.prisma (Sample.bearer Sample.blank_admin)
  = Ok {| JwtStrategy.p_id := "u-blank";
          JwtStrategy.p_email := "blank@acme.io";
          JwtStrategy.p_organizationId := Some "org-2";
          JwtStrategy.p_features := [""; "payroll"];
          JwtStrategy.p_isSuperAdmin := false;
          JwtStrategy.p_role := "organizationAdmin" |}.
Proof. repeat split. Qed.

(** ** Role membership *)

(** C9: without required roles the gate allows every request; and for every
    principal that carries [userId] and [roleName] and whose role is not
    organizationAdmin, the gate allows if and only if the role is one of the
    required roles, and otherwise throws Forbidden with the list of the
    required roles. *)
Theorem canActivate_role_membership
    (roles : list string) (request : RolesGuard.Request) :
  RolesGuard.canActivate None request = Ok true /\
  RolesGuard.canActivate (Some []) request = Ok true /\
  (roles <> [] ->
   js_truthy (js_get (RolesGuard.req_user request) "userId") = true ->
   js_truthy (js_get (RolesGuard.req_user request) "roleName") = true ->
   js_get (RolesGuard.req_user request) "roleName" <> JsString "organizationAdmin" ->
   (RolesGuard.canActivate (Some roles) request = Ok true <->
    role_in roles (js_get (RolesGuard.req_user request) "roleName")) /\
   (~ role_in roles (js_get (RolesGuard.req_user request) "roleName") ->
    RolesGuard.canActivate (Some roles) request
    = Throw (ForbiddenException
               (String.append "Access denied. Required roles: "
                              (String.concat ", " roles))))).
Proof.
  split; [reflexivity|]. split; [reflexivity|].
  intros Hroles Hid Hrole Hnot.
  rewrite canActivate_required by assumption. simpl.
  rewrite Hid, Hrole. simpl.
  destruct (RolesGuard.is_organizationAdmin
              (js_get (RolesGuard.req_user request) "roleName")) eqn:Hadm.
  - apply is_organizationAdmin_true in Hadm. contradiction.
  - rewrite <- js_includes_role_in.
    destruct (js_includes roles (js_get (RolesGuard.req_user request) "roleName"));
      simpl.
    + split; [tauto | congruence].
    + split; [split; discriminate | reflexivity].
Qed.

Lemma canActivate_role_membership_witness :
  RolesGuard.canActivate (Some ["superAdmin"])
    {| RolesGuard.req_user :=
         Some {[ "userId" := JsString "u-orphan"; "roleName" := JsString "user" ]};
       RolesGuard.req_organizationId := JsUndefined |}
  = Throw (ForbiddenException "Access denied. Required roles: superAdmin").
Proof.
  apply (canActivate_role_membership ["superAdmin"]);
    [discriminate | reflexivity | reflexivity | discriminate |].
  intros (s & [= <-] & [H|[]]). discriminate.
Defined.

(** ** Login without a usable role *)

(** C10: in [login] of the second revision, when the user is found, the
    password matches and reading the role of the first binding throws, no
    error is raised: the response is returned with the empty string as token,
    no role, no organizationId, no features and [isSuperAdmin = false]. *)
Theorem login_role_failure_response
    (ALL_FEATURES : list string) (jwt_sign : JwtPayload -> string)
    (bcrypt_compare : string -> string -> bool)
    (prisma : PrismaService) (dto : LoginDto) (u : User) (e : Exception) :
  user_findUnique_email prisma (dto_email dto) = Ok (Some u) ->
  bcrypt_compare (dto_password dto) (password u) = true ->
  first_roleName u = Throw e ->
  AuthServiceRev.login ALL_FEATURES jwt_sign bcrypt_compare prisma dto
  = Ok {| token := "";
          user := {| au_id := user_id u;
                     au_email := user_email u;
                     au_userName := userName u;
                     au_role := None;
                     au_organizationId := None;
                     au_features := Some [];
                     au_isSuperAdmin := Some false |} |}.
Proof.
  intros Hu Hpw Hrole. unfold AuthServiceRev.login.
  rewrite Hu. simpl. rewrite Hpw, Hrole. reflexivity.
Qed.

Lemma login_role_failure_response_witness :
  first_roleName Sample.broken = Throw TypeError /\
  AuthServiceRev.login Sample.catalog Sample.sign Sample.compare Sample.prisma
    {| dto_email := "broken@gms.io"; dto_password := "broken" |}
  = Ok {| token := "";
          user := {| au_id := "u-broken";
                     au_email := "broken@gms.io";
                     au_userName := "broken";
                     au_role := None;
                     au_organizationId := None;
                     au_features := Some [];
                     au_isSuperAdmin := Some false |} |}.
Proof.
  split; [reflexivity|].
  apply (login_role_failure_response Sample.catalog Sample.sign Sample.compare
           Sample.prisma {| dto_email := "broken@gms.io"; dto_password := "broken" |}
           Sample.broken TypeError);
    reflexivity.
Defined.

(** ** Outcomes of the claims resolution *)

(** The role of a payload is never the empty string. *)
Lemma first_roleName_nonempty (u : User) (r : string) :
  first_roleName u = Ok r -> r <> "".
Proof.
  unfold first_roleName. destruct (userRoles u) as [|ur rest].
  - intros [= <-]. discriminate.
  - destruct (role ur) as [r0|]; [|discriminate].
    destruct (truthy (roleName r0)) eqn:Ht; intros [= <-].
    + now apply truthy_true.
    + discriminate.
Qed.

Lemma filter_Boolean_nonempty (l : list string) :
  Forall (fun s => s <> "") (filter_Boolean l).
Proof.
  unfold filter_Boolean. apply List.Forall_forall. intros s Hs.
  apply filter_In in Hs as [_ Hs]. now apply truthy_true.
Qed.

(** The two revisions resolve the same user record and the same role. *)
Lemma generateTokenPayload_inversion
    (ALL_FEATURES : list string) (prisma : PrismaService) (userId : string)
    (payload : JwtPayload) :
  AuthService.generateTokenPayload ALL_FEATURES prisma userId = Ok payload ->
  exists u r,
    user_findUnique_id prisma userId = Ok (Some u) /\
    first_roleName u = Ok r /\
    payload
    = {| sub := user_id u;
         email := user_email u;
         payload_role := r;
         organizationId :=
           if String.eqb r "superAdmin" then None
           else org_id <$> first_organization u;
         features :=
           if String.eqb r "superAdmin" then ALL_FEATURES
           else match first_organization u with
                | Some o => filter_Boolean (feature_strings (org_features o))
                | None => []
                end;
         isSuperAdmin := String.eqb r "superAdmin" |}.
Proof.
  unfold AuthService.generateTokenPayload.
  destruct (user_findUnique_id prisma userId) as [[u|]|e]; simpl; try discriminate.
  destruct (first_roleName u) as [r|e] eqn:Hr; simpl; try discriminate.
  intros [= <-]. exists u, r. repeat split. exact Hr.
Qed.

Lemma generateTokenPayload_sub
    (ALL_FEATURES : list string) (prisma : PrismaService) (userId : string)
    (payload : JwtPayload) :
  AuthService.generateTokenPayload ALL_FEATURES prisma userId = Ok payload ->
  sub payload = userId.
Proof.
  intros H. apply generateTokenPayload_inversion in H as (u & r & Hu & _ & ->).
  simpl. now apply user_findUnique_id_found in Hu.
Qed.

Lemma generateTokenPayload_rev_inversion
    (ALL_FEATURES : list string) (prisma : PrismaService) (userId : string)
    (payload : JwtPayload) :
  AuthServiceRev.generateTokenPayload ALL_FEATURES prisma userId = Ok payload ->
  exists u r,
    user_findUnique_id prisma userId = Ok (Some u) /\
    first_roleName u = Ok r /\
    payload
    = {| sub := user_id u;
         email := user_email u;
         payload_role := r;
         organizationId :=
           fst (if String.eqb r "superAdmin" then (None, ALL_FEATURES)
                else AuthServiceRev.organization_claims prisma u);
         features :=
           snd (if String.eqb r "superAdmin" then (None, ALL_FEATURES)
                else AuthServiceRev.organization_claims prisma u);
         isSuperAdmin := String.eqb r "superAdmin" |}.
Proof.
  unfold AuthServiceRev.generateTokenPayload.
  destruct (user_findUnique_id prisma userId) as [[u|]|e]; simpl; try discriminate.
  destruct (first_roleName u) as [r|e] eqn:Hr; simpl; try discriminate.
  intros [= <-]. exists u, r. repeat split. exact Hr.
Qed.

Lemma generateTokenPayload_rev_throws
    (ALL_FEATURES : list string) (prisma : PrismaService) (userId : string)
    (e : Exception) :
  AuthServiceRev.generateTokenPayload ALL_FEATURES prisma userId = Throw e ->
  e = InternalServerErrorException "Error generating auth token".
Proof.
  unfold AuthServiceRev.generateTokenPayload, try_catch.
  destruct (_ ≫= _); [discriminate | now intros [= <-]].
Qed.

(** X1.  Whatever fails inside the resolution — a missing user, a failed
    query, a role binding without role — both revisions of
    [generateTokenPayload] throw the same InternalServerError and nothing
    else. *)
Theorem resolution_throws_internal_error_only
    (ALL_FEATURES : list string) (prisma : PrismaService) (userId : string)
    (e : Exception) :
  AuthService.generateTokenPayload ALL_FEATURES prisma userId = Throw e \/
  AuthServiceRev.generateTokenPayload ALL_FEATURES prisma userId = Throw e ->
  e = InternalServerErrorException "Error generating auth token".
Proof.
  intros [H|H].
  - now apply generateTokenPayload_throws in H.
  - now apply generateTokenPayload_rev_throws in H.
Qed.

Lemma resolution_throws_internal_error_only_witness :
  AuthService.generateTokenPayload Sample.catalog Sample.prisma "u-broken"
  = Throw (InternalServerErrorException "Error generating auth token").
Proof.
  destruct (AuthService.generateTokenPayload Sample.catalog Sample.prisma "u-broken")
    as [payload|e] eqn:H; [discriminate H|].
  f_equal.
  apply (resolution_throws_internal_error_only Sample.catalog Sample.prisma
           "u-broken" e).
  left. exact H.
Defined.

(** X2.  Every payload resolved by [generateTokenPayload] of auth.service.ts
    is for the requested user, has a non-empty role, is flagged superadmin
    exactly when that role is superAdmin, and then carries the catalog and
    no organization; otherwise its features hold no empty string and are
    empty when no organization was found. *)
Theorem resolved_payload_invariant
    (ALL_FEATURES : list string) (prisma : PrismaService) (userId : string)
    (payload : JwtPayload) :
  AuthService.generateTokenPayload ALL_FEATURES prisma userId = Ok payload ->
  sub payload = userId /\
  payload_role payload <> "" /\
  (isSuperAdmin payload = true <-> payload_role payload = "superAdmin") /\
  (isSuperAdmin payload = true ->
   organizationId payload = None /\ features payload = ALL_FEATURES) /\
  (isSuperAdmin payload = false ->
   Forall (fun f => f <> "") (features payload) /\
   (organizationId payload = None -> features payload = [])).
Proof.
  intros H. apply generateTokenPayload_inversion in H as (u & r & Hu & Hr & ->).
  simpl. split; [now apply user_findUnique_id_found in Hu|].
  split; [now apply first_roleName_nonempty in Hr|].
  split; [apply String.eqb_eq|].
  destruct (String.eqb r "superAdmin"); split; try discriminate; try tauto.
  intros _. destruct (first_organization u) as [o|]; simpl.
  - split; [apply filter_Boolean_nonempty | discriminate].
  - split; [constructor | reflexivity].
Qed.

Lemma resolved_payload_invariant_witness :
  exists payload,
    AuthService.generateTokenPayload Sample.catalog Sample.prisma "u-blank"
    = Ok payload /\
    sub payload = "u-blank" /\
    isSuperAdmin payload = false /\
    Forall (fun f => f <> "") (features payload).
Proof.
  eexists. split; [reflexivity|].
  destruct (resolved_payload_invariant Sample.catalog Sample.prisma "u-blank" _
              eq_refl) as (Hsub & _ & _ & _ & Hplain).
  split; [exact Hsub|]. split; [reflexivity|].
  apply Hplain. reflexivity.
Defined.

(** ** The two revisions of the resolution *)

(** X3.  In the second revision a failing organization query does not abort
    the resolution: for a user whose role is not superAdmin the payload is
    returned with no organization and no features. *)
Theorem resolution_survives_organization_failure
    (ALL_FEATURES : list string) (prisma : PrismaService) (userId : string)
    (u : User) (r : string) (e : Exception) :
  user_findUnique_id prisma userId = Ok (Some u) ->
  first_roleName u = Ok r ->
  r <> "superAdmin" ->
  organization_findFirst_userId prisma (user_id u) = Throw e ->
  AuthServiceRev.generateTokenPayload ALL_FEATURES prisma userId
  = Ok {| sub := user_id u;
          email := user_email u;
          payload_role := r;
          organizationId := None;
          features := [];
          isSuperAdmin := false |}.
Proof.
  intros Hu Hr Hn Ho. unfold AuthServiceRev.generateTokenPayload.
  rewrite Hu. simpl. rewrite Hr. simpl.
  apply String.eqb_neq in Hn. rewrite Hn.
  unfold AuthServiceRev.organization_claims. rewrite Ho. reflexivity.
Qed.

Lemma resolution_survives_organization_failure_witness :
  AuthServiceRev.generateTokenPayload Sample.catalog
    {| user_table := [Sample.admin];
       organization_table := [Sample.acme];
       user_query_fails := false;
       organization_query_fails := true |} "u-admin"
  = Ok {| sub := "u-admin";
          email := "admin@acme.io";
          payload_role := "organizationAdmin";
          organizationId := None;
          features := [];
          isSuperAdmin := false |}.
Proof.
  apply (resolution_survives_organization_failure Sample.catalog _ "u-admin"
           Sample.admin "organizationAdmin" PrismaClientError);
    [reflexivity | reflexivity | discriminate | reflexivity].
Defined.

(** X4.  On the same data the two revisions succeed or fail together, and
    when they succeed they agree on [sub], [email], [role] and
    [isSuperAdmin]: they can differ in [organizationId] and [features]
    only. *)
Theorem revisions_agree_on_identity_and_role
    (ALL_FEATURES : list string) (prisma : PrismaService) (userId : string) :
  match AuthService.generateTokenPayload ALL_FEATURES prisma userId,
        AuthServiceRev.generateTokenPayload ALL_FEATURES prisma userId with
  | Ok p, Ok q =>
      sub p = sub q /\ email p = email q /\
      payload_role p = payload_role q /\ isSuperAdmin p = isSuperAdmin q
  | Throw e, Throw e' => e = e'
  | _, _ => False
  end.
Proof.
  unfold AuthService.generateTokenPayload, AuthServiceRev.generateTokenPayload.
  destruct (user_findUnique_id prisma userId) as [[u|]|e]; simpl; try reflexivity.
  destruct (first_roleName u) as [r|e]; simpl; [|reflexivity].
  repeat split.
Qed.

(** X5.  The revisions resolve the same payload for a user when the
    organization found by [findFirst({ userId })] is the one behind the
    user's first office and none of its feature rows is empty. *)
Theorem revisions_agree_on_consistent_binding
    (ALL_FEATURES : list string) (prisma : PrismaService) (userId : string)
    (u : User) :
  user_findUnique_id prisma userId = Ok (Some u) ->
  organization_findFirst_userId prisma (user_id u) = Ok (first_organization u) ->
  (forall o, first_organization u = Some o ->
             Forall (fun f => feature f <> "") (org_features o)) ->
  AuthServiceRev.generateTokenPayload ALL_FEATURES prisma userId
  = AuthService.generateTokenPayload ALL_FEATURES prisma userId.
Proof.
  intros Hu Ho Hf.
  unfold AuthService.generateTokenPayload, AuthServiceRev.generateTokenPayload.
  rewrite Hu. simpl. destruct (first_roleName u) as [r|e]; simpl; [|reflexivity].
  destruct (String.eqb r "superAdmin"); [reflexivity|].
  unfold AuthServiceRev.organization_claims. rewrite Ho. simpl.
  destruct (first_organization u) as [o|]; simpl; [|reflexivity].
  rewrite filter_Boolean_id; [reflexivity|].
  unfold feature_strings. apply Forall_map. now apply Hf.
Qed.

Lemma revisions_agree_on_consistent_binding_witness :
  organization_findFirst_userId Sample.prisma "u-admin"
  = Ok (first_organization Sample.admin) /\
  AuthServiceRev.generateTokenPayload Sample.catalog Sample.prisma "u-admin"
  = AuthService.generateTokenPayload Sample.catalog Sample.prisma "u-admin".
Proof.
  split; [reflexivity|].
  apply (revisions_agree_on_consistent_binding Sample.catalog Sample.prisma
           "u-admin" Sample.admin); [reflexivity | reflexivity |].
  intros o [= <-]. repeat constructor; discriminate.
Defined.

(** ** Login *)

Section Login.

Variable ALL_FEATURES : list string.
Variable jwt_sign : JwtPayload -> string.
Variable bcrypt_compare : string -> string -> bool.
Variable prisma : PrismaService.
Variable dto : LoginDto.

(** An unknown email is reported as NotFound by both revisions of [login]:
    the [catch] lets this error through. *)
Lemma login_unknown_email :
  user_findUnique_email prisma (dto_email dto) = Ok None ->
  AuthService.login ALL_FEATURES jwt_sign bcrypt_compare prisma dto
  = Throw (NotFoundException "User not found") /\
  AuthServiceRev.login ALL_FEATURES jwt_sign bcrypt_compare prisma dto
  = Throw (NotFoundException "User not found").
Proof.
  intros Hu. unfold AuthService.login, AuthServiceRev.login.
  rewrite Hu. split; reflexivity.
Qed.

(** A wrong password is refused with Unauthorized by both revisions. *)
Lemma login_wrong_password (u : User) :
  user_findUnique_email prisma (dto_email dto) = Ok (Some u) ->
  bcrypt_compare (dto_password dto) (password u) = false ->
  AuthService.login ALL_FEATURES jwt_sign bcrypt_compare prisma dto
  = Throw (UnauthorizedException "Invalid credentials") /\
  AuthServiceRev.login ALL_FEATURES jwt_sign bcrypt_compare prisma dto
  = Throw (UnauthorizedException "Invalid credentials").
Proof.
  intros Hu Hpw. unfold AuthService.login, AuthServiceRev.login.
  rewrite Hu. simpl. rewrite Hpw. split; reflexivity.
Qed.

(** X6.  Both revisions of [login] refuse an unknown email with NotFound,
    "User not found", and a wrong password with Unauthorized, "Invalid
    credentials", whatever the roles and organizations of the account; no
    response, hence no token, is produced. *)
Theorem login_refusals :
  (user_findUnique_email prisma (dto_email dto) = Ok None ->
   AuthService.login ALL_FEATURES jwt_sign bcrypt_compare prisma dto
   = Throw (NotFoundException "User not found") /\
   AuthServiceRev.login ALL_FEATURES jwt_sign bcrypt_compare prisma dto
   = Throw (NotFoundException "User not found")) /\
  (forall u,
     user_findUnique_email prisma (dto_email dto) = Ok (Some u) ->
     bcrypt_compare (dto_password dto) (password u) = false ->
     AuthService.login ALL_FEATURES jwt_sign bcrypt_compare prisma dto
     = Throw (UnauthorizedException "Invalid credentials") /\
     AuthServiceRev.login ALL_FEATURES jwt_sign bcrypt_compare prisma dto
     = Throw (UnauthorizedException "Invalid credentials")).
Proof.
  split; [apply login_unknown_email | apply login_wrong_password].
Qed.

Lemma user_findUnique_email_throws (email : string) (e : Exception) :
  user_findUnique_email prisma email = Throw e -> e = PrismaClientError.
Proof.
  unfold user_findUnique_email. destruct (user_query_fails prisma); congruence.
Qed.

Lemma login_main_throws (e : Exception) :
  AuthService.login ALL_FEATURES jwt_sign bcrypt_compare prisma dto = Throw e ->
  e = NotFoundException "User not found" \/
  e = UnauthorizedException "Invalid credentials" \/
  e = InternalServerErrorException "Login failed".
Proof.
  unfold AuthService.login.
  destruct (user_findUnique_email prisma (dto_email dto)) as [[u|]|e0] eqn:Hq;
    simpl.
  - destruct (bcrypt_compare (dto_password dto) (password u)); simpl.
    + destruct (AuthService.generateTokenPayload ALL_FEATURES prisma (user_id u))
        as [p|e1] eqn:H1; simpl; [discriminate|].
      apply generateTokenPayload_throws in H1. subst e1. simpl.
      intros [= <-]. auto.
    + intros [= <-]. auto.
  - intros [= <-]. auto.
  - apply user_findUnique_email_throws in Hq. subst e0. intros [= <-]. auto.
Qed.

Lemma login_rev_throws (e : Exception) :
  AuthServiceRev.login ALL_FEATURES jwt_sign bcrypt_compare prisma dto = Throw e ->
  e = NotFoundException "User not found" \/
  e = UnauthorizedException "Invalid credentials" \/
  e = InternalServerErrorException "Login failed".
Proof.
  unfold AuthServiceRev.login.
  destruct (user_findUnique_email prisma (dto_email dto)) as [[u|]|e0] eqn:Hq;
    simpl.
  - destruct (bcrypt_compare (dto_password dto) (password u)); simpl.
    + destruct (first_roleName u) as [r|e2]; simpl; [|discriminate].
      destruct (AuthServiceRev.generateTokenPayload ALL_FEATURES prisma (user_id u))
        as [q|e3] eqn:H3; simpl; [discriminate|].
      apply generateTokenPayload_rev_throws in H3. subst e3. simpl.
      intros [= <-]. auto.
    + intros [= <-]. auto.
  - intros [= <-]. auto.
  - apply user_findUnique_email_throws in Hq. subst e0. intros [= <-]. auto.
Qed.

(** X7.  [login] throws nothing but NotFound "User not found", Unauthorized
    "Invalid credentials" and InternalServerError "Login failed", in both
    revisions. *)
Theorem login_throws (e : Exception) :
  AuthService.login ALL_FEATURES jwt_sign bcrypt_compare prisma dto = Throw e \/
  AuthServiceRev.login ALL_FEATURES jwt_sign bcrypt_compare prisma dto = Throw e ->
  e = NotFoundException "User not found" \/
  e = UnauthorizedException "Invalid credentials" \/
  e = InternalServerErrorException "Login failed".
Proof.
  intros [H|H]; [now apply login_main_throws | now apply login_rev_throws].
Qed.

End Login.

Lemma login_refusals_witness :
  (AuthService.login Sample.catalog Sample.sign Sample.compare Sample.prisma
     {| dto_email := "nobody@gms.io"; dto_password := "root" |}
   = Throw (NotFoundException "User not found")) /\
  (AuthServiceRev.login Sample.catalog Sample.sign Sample.compare Sample.prisma
     {| dto_email := "root@gms.io"; dto_password := "guess" |}
   = Throw (UnauthorizedException "Invalid credentials")).
Proof.
  split.
  - apply (login_refusals Sample.catalog Sample.sign Sample.compare Sample.prisma
             {| dto_email := "nobody@gms.io"; dto_password := "root" |}).
    reflexivity.
  - apply (proj2 (login_refusals Sample.catalog Sample.sign Sample.compare
                    Sample.prisma
                    {| dto_email := "root@gms.io"; dto_password := "guess" |})
                 Sample.root);
      reflexivity.
Defined.

Lemma login_throws_witness :
  AuthService.login Sample.catalog Sample.sign Sample.compare Sample.prisma
    {| dto_email := "broken@gms.io"; dto_password := "broken" |}
  = Throw (InternalServerErrorException "Login failed") /\
  (InternalServerErrorException "Login failed"
   = NotFoundException "User not found" \/
   InternalServerErrorException "Login failed"
   = UnauthorizedException "Invalid credentials" \/
   InternalServerErrorException "Login failed"
   = InternalServerErrorException "Login failed").
Proof.
  split; [reflexivity|].
  apply (login_throws Sample.catalog Sample.sign Sample.compare Sample.prisma
           {| dto_email := "broken@gms.io"; dto_password := "broken" |}).
  left. reflexivity.
Defined.

(** X8.  A response of [login] of auth.service.ts is always backed by a
    resolution: its token is the signature of a payload freshly resolved for
    the account that owns the email and the password, and the role,
    organizationId, features and isSuperAdmin it reports are those of that
    payload. *)
Theorem login_response_matches_signed_payload
    (ALL_FEATURES : list string) (jwt_sign : JwtPayload -> string)
    (bcrypt_compare : string -> string -> bool)
    (prisma : PrismaService) (dto : LoginDto) (response : AuthResponse) :
  AuthService.login ALL_FEATURES jwt_sign bcrypt_compare prisma dto = Ok response ->
  exists u payload,
    user_findUnique_email prisma (dto_email dto) = Ok (Some u) /\
    bcrypt_compare (dto_password dto) (password u) = true /\
    AuthService.generateTokenPayload ALL_FEATURES prisma (user_id u) = Ok payload /\
    token response = jwt_sign payload /\
    au_id (user response) = sub payload /\
    au_role (user response) = Some (payload_role payload) /\
    au_organizationId (user response) = organizationId payload /\
    au_features (user response) = Some (features payload) /\
    au_isSuperAdmin (user response) = Some (isSuperAdmin payload).
Proof.
  unfold AuthService.login.
  destruct (user_findUnique_email prisma (dto_email dto)) as [[u|]|e0] eqn:Hq;
    simpl; try discriminate.
  - destruct (bcrypt_compare (dto_password dto) (password u)) eqn:Hpw; simpl;
      [|discriminate].
    destruct (AuthService.generateTokenPayload ALL_FEATURES prisma (user_id u))
      as [payload|e1] eqn:Hgen; simpl.
    + intros [= <-]. exists u, payload. simpl.
      rewrite (generateTokenPayload_sub ALL_FEATURES prisma (user_id u) payload Hgen).
      repeat split; assumption.
    + apply generateTokenPayload_throws in Hgen. subst e1. discriminate.
  - destruct e0; discriminate.
Qed.

Lemma login_response_matches_signed_payload_witness :
  exists response u payload,
    AuthService.login Sample.catalog Sample.sign Sample.compare Sample.prisma
      {| dto_email := "admin@acme.io"; dto_password := "admin" |} = Ok response /\
    user_findUnique_email Sample.prisma "admin@acme.io" = Ok (Some u) /\
    AuthService.generateTokenPayload Sample.catalog Sample.prisma (user_id u)
    = Ok payload /\
    token response = Sample.sign payload /\
    au_features (user response) = Some (features payload).
Proof.
  eexists.
  destruct (login_response_matches_signed_payload Sample.catalog Sample.sign
              Sample.compare Sample.prisma
              {| dto_email := "admin@acme.io"; dto_password := "admin" |} _ eq_refl)
    as (u & payload & Hu & _ & Hgen & Htok & _ & _ & _ & Hf & _).
  exists u, payload. split; [reflexivity|]. repeat split; assumption.
Defined.

(** While the user table cannot be queried, no operation lets the
    persistence error out: both resolutions throw their InternalServerError,
    both logins throw InternalServerError "Login failed", and the validation
    of a well-formed payload throws Unauthorized "Authentication failed". *)
Lemma user_query_failure_is_masked
    (ALL_FEATURES : list string) (jwt_sign : JwtPayload -> string)
    (bcrypt_compare : string -> string -> bool)
    (prisma : PrismaService) (userId : string) (dto : LoginDto)
    (credential : JwtStrategy.DecodedPayload) :
  user_query_fails prisma = true ->
  truthy (JwtStrategy.dp_sub credential) = true ->
  truthy (JwtStrategy.dp_email credential) = true ->
  AuthService.generateTokenPayload ALL_FEATURES prisma userId
  = Throw (InternalServerErrorException "Error generating auth token") /\
  AuthServiceRev.generateTokenPayload ALL_FEATURES prisma userId
  = Throw (InternalServerErrorException "Error generating auth token") /\
  AuthService.login ALL_FEATURES jwt_sign bcrypt_compare prisma dto
  = Throw (InternalServerErrorException "Login failed") /\
  AuthServiceRev.login ALL_FEATURES jwt_sign bcrypt_compare prisma dto
  = Throw (InternalServerErrorException "Login failed") /\
  JwtStrategy.validate prisma credential
  = Throw (UnauthorizedException "Authentication failed").
Proof.
  intros Hdown Hsub Hemail.
  unfold AuthService.generateTokenPayload, AuthServiceRev.generateTokenPayload,
    AuthService.login, AuthServiceRev.login, JwtStrategy.validate,
    user_findUnique_id, user_findUnique_email.
  rewrite Hdown, Hsub, Hemail. repeat split.
Qed.

(** ** Signup *)

(** X9.  [signup] adds one error to those of [userService.create]: it
    throws either what [create] threw, unchanged, or the InternalServerError
    of the resolution; and a response it returns reports the user [create]
    returned, with the token signed from the payload resolved in the state
    [create] left. *)
Theorem signup_outcome
    (ALL_FEATURES : list string) (jwt_sign : JwtPayload -> string)
    (CreateUserDto : Type)
    (userService_create :
       PrismaService -> CreateUserDto -> Result (PrismaService * User))
    (prisma : PrismaService) (dto : CreateUserDto) :
  match AuthService.signup ALL_FEATURES jwt_sign CreateUserDto userService_create
          prisma dto with
  | Throw e =>
      userService_create prisma dto = Throw e \/
      e = InternalServerErrorException "Error generating auth token"
  | Ok (prisma', response) =>
      exists u payload,
        userService_create prisma dto = Ok (prisma', u) /\
        AuthService.generateTokenPayload ALL_FEATURES prisma' (user_id u)
        = Ok payload /\
        token response = jwt_sign payload /\
        au_id (user response) = user_id u /\
        au_email (user response) = user_email u /\
        au_features (user response) = Some (features payload)
  end.
Proof.
  unfold AuthService.signup.
  destruct (userService_create prisma dto) as [[prisma' u]|e]; simpl; [|now left].
  destruct (AuthService.generateTokenPayload ALL_FEATURES prisma' (user_id u))
    as [payload|e] eqn:Hgen; simpl.
  - exists u, payload. repeat split. exact Hgen.
  - right. now apply generateTokenPayload_throws in Hgen.
Qed.

(** ** Outcomes of the validation *)

Section ValidationOutcomes.

Variable prisma : PrismaService.
Variable credential : JwtStrategy.DecodedPayload.

Lemma user_findUnique_id_throws (userId : string) (e : Exception) :
  user_findUnique_id prisma userId = Throw e -> e = PrismaClientError.
Proof.
  unfold user_findUnique_id. destruct (user_query_fails prisma); congruence.
Qed.

Lemma some_superAdmin_throws (rows : list UserRole) (e : Exception) :
  JwtStrategy.some_superAdmin rows = Throw e -> e = TypeError.
Proof.
  induction rows as [|ur rows IH]; simpl; [discriminate|].
  destruct (role ur) as [r|]; [|congruence].
  destruct (String.eqb (roleName r) "superAdmin"); [discriminate | exact IH].
Qed.

(** X10.  [validate] throws Unauthorized only, with one of four messages. *)
Theorem validate_throws_unauthorized_only (e : Exception) :
  JwtStrategy.validate prisma credential = Throw e ->
  e = UnauthorizedException "Invalid token format" \/
  e = UnauthorizedException "User not found" \/
  e = UnauthorizedException "User has no organization access" \/
  e = UnauthorizedException "Authentication failed".
Proof.
  unfold JwtStrategy.validate.
  destruct (negb (truthy (JwtStrategy.dp_sub credential))
            || negb (truthy (JwtStrategy.dp_email credential))); simpl.
  { intros [= <-]. auto. }
  destruct (user_findUnique_id prisma (JwtStrategy.dp_sub credential))
    as [[u|]|e0] eqn:Hq; simpl.
  - destruct (JwtStrategy.some_superAdmin (userRoles u)) as [b|e1] eqn:Hs; simpl.
    + destruct (negb b && negb (truthy_opt (org_id <$> first_organization u)));
        simpl.
      * intros [= <-]. auto.
      * destruct (first_roleName_after_some u b Hs) as [r ->]. discriminate.
    + apply some_superAdmin_throws in Hs. subst e1. intros [= <-]. auto 6.
  - intros [= <-]. auto.
  - apply user_findUnique_id_throws in Hq. subst e0. intros [= <-]. auto 6.
Qed.

(** The format of the payload is tested before the persistence is read. *)
Lemma validate_invalid_format :
  truthy (JwtStrategy.dp_sub credential) = false \/
  truthy (JwtStrategy.dp_email credential) = false ->
  JwtStrategy.validate prisma credential
  = Throw (UnauthorizedException "Invalid token format").
Proof.
  intros H. unfold JwtStrategy.validate.
  replace (negb (truthy (JwtStrategy.dp_sub credential))
           || negb (truthy (JwtStrategy.dp_email credential))) with true;
    [reflexivity|].
  destruct H as [-> | ->]; [reflexivity | now rewrite orb_true_r].
Qed.

Lemma validate_deleted_user :
  truthy (JwtStrategy.dp_sub credential) = true ->
  truthy (JwtStrategy.dp_email credential) = true ->
  user_findUnique_id prisma (JwtStrategy.dp_sub credential) = Ok None ->
  JwtStrategy.validate prisma credential
  = Throw (UnauthorizedException "User not found").
Proof.
  intros Hsub Hemail Hu. unfold JwtStrategy.validate.
  rewrite Hsub, Hemail, Hu. reflexivity.
Qed.

(** X11.  A payload without [sub] or without [email] is refused as "Invalid
    token format" before the persistence is read, so that the state of the
    tables and a failing query make no difference; a well-formed payload
    whose user no longer exists is refused as "User not found", whatever
    claims the token carries. *)
Theorem validate_refusals :
  (truthy (JwtStrategy.dp_sub credential) = false \/
   truthy (JwtStrategy.dp_email credential) = false ->
   JwtStrategy.validate prisma credential
   = Throw (UnauthorizedException "Invalid token format")) /\
  (truthy (JwtStrategy.dp_sub credential) = true ->
   truthy (JwtStrategy.dp_email credential) = true ->
   user_findUnique_id prisma (JwtStrategy.dp_sub credential) = Ok None ->
   JwtStrategy.validate prisma credential
   = Throw (UnauthorizedException "User not found")).
Proof.
  split; [apply validate_invalid_format | apply validate_deleted_user].
Qed.

(** X12.  Every principal [validate] returns is the persisted user named by
    [sub]: its id is the [sub] of the token, its email the persisted one;
    it is flagged superadmin exactly when a superAdmin binding exists, it is a
    superadmin or has an organization id, its role is not empty, and its
    features are empty when it has no organization. *)
Theorem validated_principal_invariant (p : JwtStrategy.Principal) :
  JwtStrategy.validate prisma credential = Ok p ->
  exists u,
    user_findUnique_id prisma (JwtStrategy.dp_sub credential) = Ok (Some u) /\
    JwtStrategy.p_id p = JwtStrategy.dp_sub credential /\
    JwtStrategy.p_email p = user_email u /\
    (JwtStrategy.p_isSuperAdmin p = true <-> has_superAdmin_binding u) /\
    (JwtStrategy.p_isSuperAdmin p = true \/
     truthy_opt (JwtStrategy.p_organizationId p) = true) /\
    JwtStrategy.p_role p <> "" /\
    (JwtStrategy.p_organizationId p = None -> JwtStrategy.p_features p = []).
Proof.
  unfold JwtStrategy.validate.
  destruct (negb (truthy (JwtStrategy.dp_sub credential))
            || negb (truthy (JwtStrategy.dp_email credential))); simpl;
    [discriminate|].
  destruct (user_findUnique_id prisma (JwtStrategy.dp_sub credential))
    as [[u|]|e0] eqn:Hq; simpl; try discriminate.
  2: { destruct e0; discriminate. }
  destruct (JwtStrategy.some_superAdmin (userRoles u)) as [b|e1] eqn:Hs; simpl.
  2: { destruct e1; discriminate. }
  destruct (negb b && negb (truthy_opt (org_id <$> first_organization u)))
    eqn:Hacc; simpl; [discriminate|].
  destruct (first_roleName u) as [r|e2] eqn:Hr; simpl; [|destruct e2; discriminate].
  intros [= <-]. exists u. simpl.
  split; [reflexivity|].
  split; [now apply user_findUnique_id_found in Hq|].
  split; [reflexivity|].
  split.
  { destruct b.
    - split; [intros _; now apply some_superAdmin_true_binding | reflexivity].
    - apply some_superAdmin_false in Hs as [_ Hn]. split; [discriminate | tauto]. }
  split.
  { destruct b; [now left | right].
    simpl in Hacc. now apply negb_false_iff in Hacc. }
  split; [now apply first_roleName_nonempty in Hr|].
  destruct (first_organization u); [discriminate | reflexivity].
Qed.

(** X13.  [validate] reads two things of the token: its [sub], and whether
    its [email] is empty.  Two payloads with the same [sub] and a non-empty
    [email] each are validated alike, whatever role, organization, features
    or superadmin flag either of them claims. *)
Theorem validate_reads_identity_only (forged : JwtStrategy.DecodedPayload) :
  JwtStrategy.dp_sub forged = JwtStrategy.dp_sub credential ->
  truthy (JwtStrategy.dp_email forged) = truthy (JwtStrategy.dp_email credential) ->
  JwtStrategy.validate prisma forged = JwtStrategy.validate prisma credential.
Proof.
  intros Hsub Hemail. unfold JwtStrategy.validate. now rewrite Hsub, Hemail.
Qed.

End ValidationOutcomes.

Lemma validate_throws_unauthorized_only_witness :
  JwtStrategy.validate Sample.prisma (Sample.bearer Sample.broken)
  = Throw (UnauthorizedException "Authentication failed") /\
  (UnauthorizedException "Authentication failed"
   = UnauthorizedException "Invalid token format" \/
   UnauthorizedException "Authentication failed"
   = UnauthorizedException "User not found" \/
   UnauthorizedException "Authentication failed"
   = UnauthorizedException "User has no organization access" \/
   UnauthorizedException "Authentication failed"
   = UnauthorizedException "Authentication failed").
Proof.
  split; [reflexivity|].
  apply (validate_throws_unauthorized_only Sample.prisma
           (Sample.bearer Sample.broken)).
  reflexivity.
Defined.

Lemma validate_refusals_witness :
  JwtStrategy.validate
    {| user_table := [Sample.root]; organization_table := [];
       user_query_fails := true; organization_query_fails := true |}
    {| JwtStrategy.dp_sub := "u-root";
       JwtStrategy.dp_email := "";
       JwtStrategy.dp_organizationId := None;
       JwtStrategy.dp_features := Some Sample.catalog;
       JwtStrategy.dp_role := Some "superAdmin";
       JwtStrategy.dp_isSuperAdmin := Some true;
       JwtStrategy.dp_iat := None;
       JwtStrategy.dp_exp := None |}
  = Throw (UnauthorizedException "Invalid token format") /\
  JwtStrategy.validate
    {| user_table := [Sample.root]; organization_table := [Sample.acme];
       user_query_fails := false; organization_query_fails := false |}
    (Sample.bearer Sample.admin)
  = Throw (UnauthorizedException "User not found").
Proof.
  split.
  - apply validate_refusals. right. reflexivity.
  - apply validate_refusals; reflexivity.
Defined.

Lemma validated_principal_invariant_witness :
  exists p u,
    JwtStrategy.validate Sample.prisma (Sample.bearer Sample.promoted) = Ok p /\
    user_findUnique_id Sample.prisma "u-prom" = Ok (Some u) /\
    JwtStrategy.p_id p = "u-prom" /\
    (JwtStrategy.p_isSuperAdmin p = true <-> has_superAdmin_binding u).
Proof.
  eexists.
  destruct (validated_principal_invariant Sample.prisma
              (Sample.bearer Sample.promoted) _ eq_refl)
    as (u & Hu & Hid & _ & Hsuper & _).
  exists u. split; [reflexivity|]. repeat split; try assumption; apply Hsuper.
Defined.

(** A token for [Sample.orphan] that claims to be a superadmin of "org-1". *)
Lemma validate_reads_identity_only_witness :
  JwtStrategy.validate Sample.prisma
    {| JwtStrategy.dp_sub := "u-orphan";
       JwtStrategy.dp_email := "someone@else.io";
       JwtStrategy.dp_organizationId := Some "org-1";
       JwtStrategy.dp_features := Some Sample.catalog;
       JwtStrategy.dp_role := Some "superAdmin";
       JwtStrategy.dp_isSuperAdmin := Some true;
       JwtStrategy.dp_iat := None;
       JwtStrategy.dp_exp := None |}
  = JwtStrategy.validate Sample.prisma (Sample.bearer Sample.orphan).
Proof.
  apply validate_reads_identity_only; reflexivity.
Defined.

(** ** Outcomes of the gate *)

Section GateOutcomes.

Variable request : RolesGuard.Request.

(** X14.  The gate never answers [false]: it returns [true] or throws
    Forbidden, with one of its three messages. *)
Theorem canActivate_allows_or_forbids (requiredRoles : option (list string)) :
  RolesGuard.canActivate requiredRoles request = Ok true \/
  RolesGuard.canActivate requiredRoles request
  = Throw (ForbiddenException "Missing userId or roleName in token") \/
  RolesGuard.canActivate requiredRoles request
  = Throw (ForbiddenException "Organization context missing") \/
  exists roles,
    requiredRoles = Some roles /\
    RolesGuard.canActivate requiredRoles request
    = Throw (ForbiddenException
               (String.append "Access denied. Required roles: "
                              (String.concat ", " roles))).
Proof.
  destruct requiredRoles as [[|r roles]|]; try (left; reflexivity).
  rewrite canActivate_required by discriminate. simpl.
  destruct (negb (js_truthy (js_get (RolesGuard.req_user request) "userId"))
            || negb (js_truthy (js_get (RolesGuard.req_user request) "roleName")));
    [auto|].
  destruct (RolesGuard.is_organizationAdmin
              (js_get (RolesGuard.req_user request) "roleName")).
  - destruct (negb (js_truthy (RolesGuard.req_organizationId request))); auto.
  - destruct (negb (js_includes (r :: roles)
                      (js_get (RolesGuard.req_user request) "roleName")));
      [|auto].
    right. right. right. exists (r :: roles). split; reflexivity.
Qed.

(** On a route that requires roles, a request without user, or whose
    user lacks [userId] or [roleName], is refused with "Missing userId or
    roleName in token", whatever roles are required and whatever
    organization context is attached. *)
Lemma canActivate_missing_identity (roles : list string) :
  roles <> [] ->
  js_truthy (js_get (RolesGuard.req_user request) "userId") = false \/
  js_truthy (js_get (RolesGuard.req_user request) "roleName") = false ->
  RolesGuard.canActivate (Some roles) request
  = Throw (ForbiddenException "Missing userId or roleName in token").
Proof.
  intros Hroles H. rewrite canActivate_required by assumption. simpl.
  destruct H as [-> | ->]; [reflexivity | now rewrite orb_true_r].
Qed.

Lemma js_includes_incl (roles roles' : list string) (v : JsValue) :
  incl roles roles' -> js_includes roles v = true -> js_includes roles' v = true.
Proof.
  intros Hincl. rewrite !js_includes_role_in. intros (s & -> & Hin).
  exists s. split; [reflexivity | now apply Hincl].
Qed.

(** X15.  Requiring more roles never closes a route: a request allowed under
    a non-empty list of required roles is allowed under every list that
    contains those roles. *)
Theorem canActivate_monotone (roles roles' : list string) :
  roles <> [] ->
  incl roles roles' ->
  RolesGuard.canActivate (Some roles) request = Ok true ->
  RolesGuard.canActivate (Some roles') request = Ok true.
Proof.
  intros Hroles Hincl.
  assert (Hroles' : roles' <> []).
  { destruct roles as [|r roles]; [congruence|].
    intros ->. apply (Hincl r). now left. }
  rewrite !canActivate_required by assumption. simpl.
  destruct (negb (js_truthy (js_get (RolesGuard.req_user request) "userId"))
            || negb (js_truthy (js_get (RolesGuard.req_user request) "roleName")));
    [discriminate|].
  destruct (RolesGuard.is_organizationAdmin
              (js_get (RolesGuard.req_user request) "roleName")); [tauto|].
  destruct (js_includes roles (js_get (RolesGuard.req_user request) "roleName"))
    eqn:Hin; simpl; [|discriminate].
  intros _. now rewrite (js_includes_incl roles roles' _ Hincl Hin).
Qed.

End GateOutcomes.

Lemma canActivate_monotone_witness :
  RolesGuard.canActivate (Some ["auditor"; "superAdmin"; "manager"])
    {| RolesGuard.req_user :=
         Some {[ "userId" := JsString "u-root"; "roleName" := JsString "superAdmin" ]};
       RolesGuard.req_organizationId := JsUndefined |}
  = Ok true.
Proof.
  apply (canActivate_monotone _ ["superAdmin"]);
    [discriminate | | reflexivity].
  intros r [<-|[]]. right. now left.
Defined.

(** ** The routes of the organization controller *)

(** X16.  Behind the validator of jwt.strategy.ts, whose principal carries
    [id] and [role], the gate lets a request through to the [create] handler
    only: every handler of the organization controller that declares
    required roles is refused with "Missing userId or roleName in token",
    whatever the role of the principal and the values of the role
    enumeration. *)
Theorem organization_routes_behind_validator
    (superAdmin organizationAdmin : string)
    (prisma : PrismaService) (credential : JwtStrategy.DecodedPayload)
    (p : JwtStrategy.Principal) (context : JsValue)
    (h : OrganizationController.Handler) :
  JwtStrategy.validate prisma credential = Ok p ->
  RolesGuard.canActivate
    (OrganizationController.requiredRoles superAdmin organizationAdmin h)
    {| RolesGuard.req_user := Some (JwtStrategy.request_user p);
       RolesGuard.req_organizationId := context |}
  = match h with
    | OrganizationController.create => Ok true
    | _ => Throw (ForbiddenException "Missing userId or roleName in token")
    end.
Proof.
  intros _. destruct h; reflexivity.
Qed.

Lemma organization_routes_behind_validator_witness :
  exists p,
    JwtStrategy.validate Sample.prisma (Sample.bearer Sample.root) = Ok p /\
    JwtStrategy.p_role p = "superAdmin" /\
    RolesGuard.canActivate
      (OrganizationController.requiredRoles "superAdmin" "organizationAdmin"
         OrganizationController.remove)
      {| RolesGuard.req_user := Some (JwtStrategy.request_user p);
         RolesGuard.req_organizationId := JsUndefined |}
    = Throw (ForbiddenException "Missing userId or roleName in token").
Proof.
  eexists. split; [reflexivity|]. split; [reflexivity|].
  apply (organization_routes_behind_validator "superAdmin" "organizationAdmin"
           Sample.prisma (Sample.bearer Sample.root) _ JsUndefined
           OrganizationController.remove).
  reflexivity.
Defined.

(** ** The user slice *)

Section Slice.

Import UserSlice.

Lemma js_or_truthy (a b : JsValue) :
  js_truthy b = true -> js_truthy (js_or a b) = true.
Proof.
  unfold js_or. destruct (js_truthy a) eqn:Ha; [now rewrite Ha | trivial].
Qed.

Lemma stored_user_features (u : JsObject) :
  js_get (Some (stored_user u)) "features"
  = js_or (js_get (Some u) "features") (JsStringArray []).
Proof.
  unfold stored_user, js_get.
  rewrite lookup_insert_ne by discriminate. now rewrite lookup_insert_eq.
Qed.

Lemma stored_user_isSuperAdmin (u : JsObject) :
  js_get (Some (stored_user u)) "isSuperAdmin"
  = js_or (js_get (Some u) "isSuperAdmin") (JsBoolean false).
Proof.
  unfold stored_user, js_get. now rewrite lookup_insert_eq.
Qed.

Lemma stored_user_other (u : JsObject) (name : string) :
  name <> "features" -> name <> "isSuperAdmin" ->
  stored_user u !! name = u !! name.
Proof.
  intros Hf Hs. unfold stored_user.
  rewrite lookup_insert_ne by congruence. now rewrite lookup_insert_ne by congruence.
Qed.

Lemma reducer_consistent (state state' : State) (action : Action) :
  consistent state -> reducer state action = Ok state' -> consistent state'.
Proof.
  intros (Hfetch & Herr & Huser) H. unfold consistent.
  destruct action as [|payload|payload| |payload|]; simpl in H.
  - injection H as <-. cbn [currentUser isFetching error]. auto.
  - destruct (payload ≫= payload_data) as [d|].
    + destruct (data_user d) as [u|]; [|discriminate].
      injection H as <-. cbn [currentUser isFetching error].
      split; [discriminate|]. split; [now left|].
      intros cu [= <-]. rewrite stored_user_features, stored_user_isSuperAdmin.
      split; [now apply js_or_truthy|].
      unfold js_or. destruct (js_truthy (js_get (Some u) "isSuperAdmin")) eqn:Hs;
        auto.
    + injection H as <-. cbn [currentUser isFetching error].
      split; [discriminate|]. split; [now right | assumption].
  - injection H as <-. cbn [currentUser isFetching error].
    split; [discriminate|]. split; [right; now apply js_or_truthy | discriminate].
  - injection H as <-. cbn [currentUser isFetching error].
    split; [discriminate|]. split; [now left | discriminate].
  - injection H as <-. cbn [currentUser isFetching error]. auto.
  - injection H as <-. cbn [currentUser isFetching error]. auto.
Qed.

Lemma dispatch_all_consistent (actions : list Action) (state : State) :
  consistent state -> consistent (dispatch_all state actions).
Proof.
  revert state. induction actions as [|a actions IH]; intros state Hs; simpl;
    [assumption|].
  destruct (reducer state a) as [state'|e] eqn:Hr; apply IH; [|assumption].
  eapply reducer_consistent; eassumption.
Qed.

(** X17.  Whatever actions are dispatched from the initial state, the store
    is fetching only while no error is recorded, its error is [false] or a
    truthy value, and a current user always carries truthy [features] and an
    [isSuperAdmin] that is [false] or truthy. *)
Theorem store_stays_consistent (actions : list Action) :
  consistent (dispatch_all initialState actions).
Proof.
  apply dispatch_all_consistent. unfold consistent, initialState. simpl.
  repeat split; auto; discriminate.
Qed.

(** X18.  A login response with a user is stored with its token; the stored
    user has every property of the received one, except that [features]
    falls back to the empty array and [isSuperAdmin] to [false] when they
    are missing or falsy; the error is cleared. *)
Theorem loginSuccess_stores_user (state : State) (d : LoginData) (u : JsObject) :
  data_user d = Some u ->
  exists stored,
    reducer state (loginSuccess (Some {| payload_data := Some d |}))
    = Ok {| currentUser := Some stored; token := data_token d;
            isFetching := false; error := JsBoolean false |} /\
    js_get (Some stored) "features"
    = js_or (js_get (Some u) "features") (JsStringArray []) /\
    js_get (Some stored) "isSuperAdmin"
    = js_or (js_get (Some u) "isSuperAdmin") (JsBoolean false) /\
    (forall name, name <> "features" -> name <> "isSuperAdmin" ->
                  stored !! name = u !! name).
Proof.
  intros Hu. exists (stored_user u). simpl. rewrite Hu.
  split; [reflexivity|]. split; [apply stored_user_features|].
  split; [apply stored_user_isSuperAdmin | apply stored_user_other].
Qed.

(** A login response without [data] records the error "Invalid login
    response" and stops fetching, but keeps the user and the token the store
    held: a session opened earlier stays in place. *)
Lemma loginSuccess_invalid_keeps_session
    (state : State) (payload : option LoginPayload) :
  payload ≫= payload_data = None ->
  reducer state (loginSuccess payload)
  = Ok {| currentUser := currentUser state; token := token state;
          isFetching := false; error := JsString "Invalid login response" |}.
Proof.
  intros H. simpl. now rewrite H.
Qed.

End Slice.

Lemma loginSuccess_stores_user_witness :
  exists stored,
    UserSlice.reducer UserSlice.initialState
      (UserSlice.loginSuccess
         (Some {| UserSlice.payload_data :=
                    Some {| UserSlice.data_token := JsString "jwt:u-orphan";
                            UserSlice.data_user :=
                              Some {[ "email" := JsString "orphan@gms.io" ]} |} |}))
    = Ok {| UserSlice.currentUser := Some stored;
            UserSlice.token := JsString "jwt:u-orphan";
            UserSlice.isFetching := false;
            UserSlice.error := JsBoolean false |} /\
    js_get (Some stored) "features" = JsStringArray [] /\
    js_get (Some stored) "isSuperAdmin" = JsBoolean false /\
    js_get (Some stored) "email" = JsString "orphan@gms.io".
Proof.
  destruct (loginSuccess_stores_user UserSlice.initialState
              {| UserSlice.data_token := JsString "jwt:u-orphan";
                 UserSlice.data_user := Some {[ "email" := JsString "orphan@gms.io" ]} |}
              {[ "email" := JsString "orphan@gms.io" ]} eq_refl)
    as (stored & Hred & Hf & Hs & Hother).
  exists stored. split; [exact Hred|]. split; [exact Hf|]. split; [exact Hs|].
  unfold js_get. rewrite Hother by discriminate. reflexivity.
Defined.

(** ** Offices and bank accounts of an organization *)

Section Offices.

Import OrganizationService.

Variable CreateOfficeDto : Type.
Variable CreateOrganizationBankAccountDto : Type.
Variable BranchCode : Type.

Variable db : Database CreateOfficeDto CreateOrganizationBankAccountDto BranchCode.
Variable organizationId : string.

Lemma offices_of_In (rows : list (Office CreateOfficeDto BranchCode))
    (o : Office CreateOfficeDto BranchCode) :
  In o (offices_of organizationId rows) <->
  In o rows /\ office_organizationId o = organizationId.
Proof.
  unfold offices_of. rewrite filter_In. now rewrite String.eqb_eq.
Qed.

Lemma organization_findUnique_id_found (g : Organization) :
  organization_findUnique_id db organizationId = Ok (Some g) ->
  organization_query_fails (prisma db) = false /\
  find (fun x => String.eqb (org_id x) organizationId)
       (organization_table (prisma db)) = Some g.
Proof.
  unfold organization_findUnique_id.
  destruct (organization_query_fails (prisma db)); [discriminate|].
  now intros [= ->].
Qed.

(** X19.  For an existing organization [getOffices] returns the offices of
    that organization and no other: a row is listed exactly when it is in the
    office table under the requested organization id, and it comes with that
    organization. *)
Theorem getOffices_lists_own_offices (g : Organization) :
  truthy organizationId = true ->
  organization_findUnique_id db organizationId = Ok (Some g) ->
  office_query_fails db = false ->
  exists listed,
    getOffices db organizationId = Ok listed /\
    forall (o : Office CreateOfficeDto BranchCode) (joined : option Organization),
      In (o, joined) listed <->
      In o (office_table db) /\ office_organizationId o = organizationId /\
      joined = Some g.
Proof.
  intros Hid Hg Hq. unfold getOffices. rewrite Hid, Hg. simpl.
  unfold office_findMany. rewrite Hq. eexists. split; [reflexivity|].
  apply organization_findUnique_id_found in Hg as [_ Hfind].
  intros o joined. rewrite in_map_iff. split.
  - intros (o' & [= <- <-] & Hin). apply offices_of_In in Hin as [Hin Horg].
    rewrite Horg. auto.
  - intros (Hin & Horg & ->). exists o. split.
    + now rewrite Horg, Hfind.
    + now apply offices_of_In.
Qed.

(** X20.  [getOffices] converts a failure of the organization query, which
    it awaits inside its [try], into its InternalServerError; a failure of
    the office query, whose promise it returns without awaiting, leaves the
    function as the client raised it. *)
Theorem getOffices_query_failures :
  truthy organizationId = true ->
  (organization_query_fails (prisma db) = true ->
   getOffices db organizationId
   = Throw (InternalServerErrorException
              "Failed to fetch offices. Please try again later.")) /\
  (organization_query_fails (prisma db) = false ->
   office_query_fails db = true ->
   find (fun x => String.eqb (org_id x) organizationId)
        (organization_table (prisma db)) <> None ->
   getOffices db organizationId = Throw PrismaClientError).
Proof.
  intros Hid. unfold getOffices, organization_findUnique_id, office_findMany.
  rewrite Hid. split.
  - intros ->. reflexivity.
  - intros -> -> Hfind. simpl.
    destruct (find _ (organization_table (prisma db))); [reflexivity | congruence].
Qed.

(** X21.  [getAllBankAccounts] does not look the organization up: for every
    non-empty id it returns the accounts filed under that id, also when no
    such organization exists or the organization table cannot be read. *)
Theorem getAllBankAccounts_skips_organization :
  truthy organizationId = true ->
  bankAccount_query_fails db = false ->
  exists accounts,
    getAllBankAccounts db organizationId = Ok accounts /\
    forall a : BankAccount CreateOrganizationBankAccountDto,
      In a accounts <->
      In a (bankAccount_table db) /\ account_organizationId a = organizationId.
Proof.
  intros Hid Hq. unfold getAllBankAccounts, bankAccount_findMany.
  rewrite Hid, Hq. eexists. split; [reflexivity|].
  intros a. unfold accounts_of. rewrite filter_In. now rewrite String.eqb_eq.
Qed.

(** X22.  A successful [deleteOffice] removed an office of the organization
    it was called for: the returned row has the requested id and
    organization, the rows left are those with another id, and nothing else
    changed. *)
Theorem deleteOffice_removes_own_office (officeId : string)
    (db' : Database CreateOfficeDto CreateOrganizationBankAccountDto BranchCode)
    (row : Office CreateOfficeDto BranchCode) :
  deleteOffice db officeId organizationId = Ok (db', row) ->
  In row (office_table db) /\
  office_id row = officeId /\
  office_organizationId row = organizationId /\
  (forall o : Office CreateOfficeDto BranchCode,
     In o (office_table db') <-> In o (office_table db) /\ office_id o <> officeId) /\
  prisma db' = prisma db /\
  bankAccount_table db' = bankAccount_table db.
Proof.
  unfold deleteOffice, office_findUnique_id, office_delete.
  destruct (office_query_fails db); [discriminate|]. simpl.
  destruct (find (fun o => String.eqb (office_id o) officeId) (office_table db))
    as [o|] eqn:Hfind; [|discriminate].
  destruct (String.eqb (office_organizationId o) organizationId) eqn:Horg; simpl;
    [|discriminate].
  intros [= <- <-]. simpl.
  apply find_some in Hfind as [Hin Hid].
  apply String.eqb_eq in Hid. apply String.eqb_eq in Horg.
  split; [assumption|]. split; [assumption|]. split; [assumption|].
  split; [|split; reflexivity].
  intros x. rewrite filter_In, negb_true_iff, String.eqb_neq. reflexivity.
Qed.

(** X23.  [deleteOffice] answers for the office of another organization
    exactly as for an office that does not exist: NotFound, "Office with this
    ID doesn't exist". *)
Theorem deleteOffice_foreign_office (officeId : string) (o : Office CreateOfficeDto BranchCode) :
  office_findUnique_id db officeId = Ok (Some o) ->
  office_organizationId o <> organizationId ->
  deleteOffice db officeId organizationId
  = Throw (NotFoundException "Office with this ID doesn't exist").
Proof.
  intros Ho Hn. unfold deleteOffice. rewrite Ho. simpl.
  apply String.eqb_neq in Hn. now rewrite Hn.
Qed.

(** X24.  After a successful [addOffice] the new office, which carries the
    assigned key, the given organization and the generated branch code, is
    listed by [getOffices] for its organization, and the listing of every
    other organization is what it was. *)
Theorem addOffice_then_getOffices
    (gen : Generated BranchCode) (dto : CreateOfficeDto)
    (db' : Database CreateOfficeDto CreateOrganizationBankAccountDto BranchCode)
    (row : Office CreateOfficeDto BranchCode) (joined : option Organization) :
  addOffice db gen dto organizationId = Ok (db', (row, joined)) ->
  row = {| office_id := generated_id gen;
           office_organizationId := organizationId;
           branchCode := generated_branchCode gen;
           office_fields := dto |} /\
  (exists listed,
     getOffices db' organizationId = Ok listed /\ In (row, joined) listed) /\
  (forall other, other <> organizationId ->
                 getOffices db' other = getOffices db other).
Proof.
  unfold addOffice.
  destruct (truthy organizationId) eqn:Hid; simpl; [|discriminate].
  destruct (organization_findUnique_id db organizationId) as [[g|]|e] eqn:Hg;
    simpl; try discriminate.
  unfold office_create.
  destruct (office_query_fails db) eqn:Hq; [discriminate|].
  intros [= <- <- <-]. split; [reflexivity|]. split.
  - unfold getOffices. rewrite Hid.
    unfold organization_findUnique_id in *. simpl.
    destruct (organization_query_fails (prisma db)); [discriminate|].
    injection Hg as Hg. rewrite Hg. simpl.
    unfold office_findMany. simpl. rewrite ?Hq.
    eexists. split; [reflexivity|].
    apply in_map_iff.
    exists {| office_id := generated_id gen;
              office_organizationId := organizationId;
              branchCode := generated_branchCode gen;
              office_fields := dto |}.
    split; [simpl; now rewrite ?Hg|].
    apply offices_of_In. split; [|reflexivity].
    apply in_or_app. right. now left.
  - intros other Hother. unfold getOffices, organization_findUnique_id,
      office_findMany. simpl. rewrite ?Hq.
    replace (offices_of other (office_table db ++ _))
      with (offices_of other (office_table db)); [reflexivity|].
    unfold offices_of. rewrite List.filter_app. simpl.
    apply not_eq_sym in Hother. apply String.eqb_neq in Hother.
    rewrite Hother. now rewrite app_nil_r.
Qed.

Lemma filter_fresh (rows : list (Office CreateOfficeDto BranchCode)) (id : string) :
  Forall (fun o => office_id o <> id) rows ->
  List.filter (fun o => negb (String.eqb (office_id o) id)) rows = rows.
Proof.
  induction 1 as [|o rows Ho _ IH]; simpl; [reflexivity|].
  apply String.eqb_neq in Ho. rewrite Ho. simpl. now rewrite IH.
Qed.

Lemma find_fresh_last (rows : list (Office CreateOfficeDto BranchCode))
    (row : Office CreateOfficeDto BranchCode) :
  Forall (fun o => office_id o <> office_id row) rows ->
  find (fun o => String.eqb (office_id o) (office_id row)) (rows ++ [row])
  = Some row.
Proof.
  induction 1 as [|o rows Ho _ IH]; simpl.
  - now rewrite String.eqb_refl.
  - apply String.eqb_neq in Ho. now rewrite Ho.
Qed.

(** X25.  Deleting the office that [addOffice] just created, under a key no
    other office has, for the same organization, returns that office and
    brings every table back to what it was. *)
Theorem addOffice_then_deleteOffice
    (gen : Generated BranchCode) (dto : CreateOfficeDto)
    (db' : Database CreateOfficeDto CreateOrganizationBankAccountDto BranchCode)
    (created : Office CreateOfficeDto BranchCode * option Organization) :
  Forall (fun o : Office CreateOfficeDto BranchCode => office_id o <> generated_id gen)
         (office_table db) ->
  addOffice db gen dto organizationId = Ok (db', created) ->
  deleteOffice db' (generated_id gen) organizationId = Ok (db, fst created).
Proof.
  intros Hfresh. unfold addOffice.
  destruct (truthy organizationId); simpl; [|discriminate].
  destruct (organization_findUnique_id db organizationId) as [[g|]|e];
    simpl; try discriminate.
  unfold office_create.
  destruct (office_query_fails db) eqn:Hq; [discriminate|].
  intros [= <- <-].
  unfold deleteOffice, office_findUnique_id, office_delete. simpl.
  rewrite ?Hq. simpl.
  pose proof (find_fresh_last (office_table db)
                {| office_id := generated_id gen;
                   office_organizationId := organizationId;
                   branchCode := generated_branchCode gen;
                   office_fields := dto |} Hfresh) as Hfind.
  simpl in Hfind. rewrite Hfind. simpl.
  rewrite String.eqb_refl. simpl.
  rewrite List.filter_app, (filter_fresh _ _ Hfresh). simpl.
  rewrite String.eqb_refl. simpl. rewrite app_nil_r.
  destruct db. simpl in *. now rewrite Hq.
Qed.

End Offices.

(** ** Registration of an organization *)

Section Registration.

Import OrganizationService.

Variable CreateOfficeDto : Type.
Variable CreateOrganizationBankAccountDto : Type.
Variable BranchCode : Type.
Variable OrganizationColumns : Type.
Variable organizationName : OrganizationColumns -> string.
Variable bcrypt_hash : string -> string.
Variable RolesEnum_organizationAdmin : string.
Variable native_message : Thrown -> string.

Variable db : Database CreateOfficeDto CreateOrganizationBankAccountDto BranchCode.
Variable env : Assigned BranchCode.
Variable dto : CreateOrganizationDto CreateOfficeDto OrganizationColumns.

(** What [create_catch] lets out. *)
Lemma create_catch_kinds {A : Type} (error error' : Thrown) :
  create_catch native_message error = @Failed A error' ->
  (exists m, error' = ConflictException m) \/
  (exists m, error' = Http (NotFoundException m)) \/
  (exists m, error' = Http (InternalServerErrorException m)).
Proof.
  destruct error as [e|m|code target|m]; simpl.
  - destruct e; intros [= <-]; eauto.
  - intros [= <-]. eauto.
  - destruct (String.eqb code "P2002"); intros [= <-]; eauto.
  - intros [= <-]. eauto.
Qed.

(** The offices created by [create] leave the other tables alone. *)
Lemma create_offices_prisma
    (offices : list CreateOfficeDto)
    (d d' : Database CreateOfficeDto CreateOrganizationBankAccountDto BranchCode)
    (assigned : nat -> Generated BranchCode) (n : nat) (organizationId : string) :
  create_offices d assigned n organizationId offices = Ok d' ->
  prisma d' = prisma d.
Proof.
  revert d n. induction offices as [|office rest IH]; intros d n; simpl.
  - now intros [= <-].
  - unfold office_create. destruct (office_query_fails d); [discriminate|]. simpl.
    intros H. now apply IH in H.
Qed.

(** X27.  [create] asks for at least one feature before it reads any table:
    without an array of features, or with an empty one, it fails with
    InternalServerError, "At least one feature must be provided", whatever
    the state of the tables. *)
Theorem create_requires_features :
  new_features dto = None \/ new_features dto = Some [] ->
  create organizationName bcrypt_hash RolesEnum_organizationAdmin native_message
    db env dto
  = Failed (Http (InternalServerErrorException
                    "At least one feature must be provided")).
Proof.
  intros [H|H]; unfold create; rewrite H; reflexivity.
Qed.

(** X28.  [create] fails with Conflict, NotFound or InternalServerError only:
    the plain error of its own validation, the errors of the client and the
    rejections of the database never leave it as they are. *)
Theorem create_failure_kinds (error : Thrown) :
  create organizationName bcrypt_hash RolesEnum_organizationAdmin native_message
    db env dto = Failed error ->
  (exists m, error = ConflictException m) \/
  (exists m, error = Http (NotFoundException m)) \/
  (exists m, error = Http (InternalServerErrorException m)).
Proof.
  unfold create.
  match goal with
  | |- match ?body with _ => _ end = _ -> _ => destruct body as [result|e]
  end; [discriminate|].
  apply create_catch_kinds.
Qed.

(** X29.  When the database rejects the creation of the user for a unique
    constraint, [create] reports a Conflict that names the first field of the
    constraint, or "unknown field" when the error names none. *)
Theorem create_unique_violation
    (features : list string) (r : Role) (target : option (list string)) :
  new_features dto = Some features ->
  features <> [] ->
  unregistered db dto ->
  role_findFirst db RolesEnum_organizationAdmin = Ok (Some r) ->
  rejected env = Some target ->
  create organizationName bcrypt_hash RolesEnum_organizationAdmin native_message
    db env dto
  = Failed (ConflictException
              (String.append (violated_field target) " already exists")).
Proof.
  intros Hf Hne (Ho & Hu & Hn) Hr Hrej. unfold create.
  rewrite Hf. destruct features as [|f features]; [congruence|].
  rewrite Ho, Hu, Hn. simpl. unfold create_transaction.
  rewrite Hr. simpl. rewrite Hrej. reflexivity.
Qed.

(** What a successful [create] did. *)
Lemma create_done
    (db' : Database CreateOfficeDto CreateOrganizationBankAccountDto BranchCode)
    (created : Created) :
  create organizationName bcrypt_hash RolesEnum_organizationAdmin native_message
    db env dto = Done (db', created) ->
  exists features r,
    new_features dto = Some features /\
    find (fun x => String.eqb (roleName x) RolesEnum_organizationAdmin)
         (role_table db) = Some r /\
    user_query_fails (prisma db) = false /\
    organization_query_fails (prisma db) = false /\
    prisma db'
    = {| user_table :=
           user_table (prisma db) ++ [new_user bcrypt_hash env dto r];
         organization_table :=
           organization_table (prisma db) ++ [new_organization env features];
         user_query_fails := false;
         organization_query_fails := false |} /\
    created
    = {| data_user :=
           {| created_id := assigned_user_id env;
              created_email := new_email dto;
              created_userName := new_userName dto;
              created_roleName :=
                if truthy (roleName r) then roleName r else "organizationAdmin";
              created_organizationId := assigned_organization_id env;
              created_features := features;
              created_isSuperAdmin := false |};
         data_organization :=
           {| organization_id := assigned_organization_id env;
              organization_name := organizationName (new_columns dto);
              organization_features := features |} |}.
Proof.
  unfold create.
  destruct (new_features dto) as [[|f features]|] eqn:Hf; try discriminate.
  unfold organization_findUnique_email, user_findUnique_email,
    user_findFirst_userName.
  destruct (organization_query_fails (prisma db)) eqn:Hoq; [discriminate|].
  destruct (user_query_fails (prisma db)) eqn:Huq; [discriminate|]. simpl.
  destruct (find _ (organization_email db)); simpl; [discriminate|].
  destruct (find _ (user_table (prisma db))); [discriminate|].
  destruct (find _ (user_table (prisma db))); [discriminate|].
  unfold create_transaction, role_findFirst.
  destruct (role_query_fails db); [discriminate|]. simpl.
  destruct (find _ (role_table db)) as [r|] eqn:Hr; [|discriminate].
  destruct (rejected env); [discriminate|].
  unfold user_create, organization_create. rewrite Huq. simpl. rewrite Hoq. simpl.
  match goal with
  | |- context [create_offices ?d ?a ?n ?o ?l] =>
      destruct (create_offices d a n o l) as [db3|e] eqn:Hoff
  end; simpl.
  - apply create_offices_prisma in Hoff. simpl in Hoff.
    intros [= <- <-]. exists (f :: features), r.
    repeat split; try assumption.
    unfold feature_strings, new_organization. simpl.
    rewrite map_map. simpl. now rewrite map_id.
  - destruct e; discriminate.
Qed.

(** X30.  The account [create] registers as administrator of the new
    organization is bound to it through [organization.userId] only.  When the
    keys assigned to the user are fresh and the role is not superAdmin, the
    second revision of the resolution gives it the new organization and the
    requested features, while the resolution of auth.service.ts gives it no
    organization and no feature, and the validation refuses every credential
    issued to it. *)
Theorem registered_admin_is_orphaned
    (ALL_FEATURES : list string)
    (db' : Database CreateOfficeDto CreateOrganizationBankAccountDto BranchCode)
    (created : Created) (credential : JwtStrategy.DecodedPayload) :
  create organizationName bcrypt_hash RolesEnum_organizationAdmin native_message
    db env dto = Done (db', created) ->
  Forall (fun u => user_id u <> assigned_user_id env) (user_table (prisma db)) ->
  Forall (fun g => org_userId g <> assigned_user_id env)
         (organization_table (prisma db)) ->
  truthy RolesEnum_organizationAdmin = true ->
  RolesEnum_organizationAdmin <> "superAdmin" ->
  JwtStrategy.dp_sub credential = created_id (data_user created) ->
  truthy (JwtStrategy.dp_sub credential) = true ->
  truthy (JwtStrategy.dp_email credential) = true ->
  AuthServiceRev.generateTokenPayload ALL_FEATURES (prisma db')
    (created_id (data_user created))
  = Ok {| sub := created_id (data_user created);
          email := new_email dto;
          payload_role := RolesEnum_organizationAdmin;
          organizationId := Some (created_organizationId (data_user created));
          features := created_features (data_user created);
          isSuperAdmin := false |} /\
  AuthService.generateTokenPayload ALL_FEATURES (prisma db')
    (created_id (data_user created))
  = Ok {| sub := created_id (data_user created);
          email := new_email dto;
          payload_role := RolesEnum_organizationAdmin;
          organizationId := None;
          features := [];
          isSuperAdmin := false |} /\
  JwtStrategy.validate (prisma db') credential
  = Throw (UnauthorizedException "User has no organization access").
Proof.
  intros Hdone Hfresh Hunbound Hrole Hnot Hsub Hsubt Hemail.
  apply create_done in Hdone
    as (features & r & Hf & Hr & Huq & Hoq & Hprisma & ->).
  simpl in *.
  apply find_some in Hr as [_ Hname]. apply String.eqb_eq in Hname.
  assert (Hu : user_findUnique_id (prisma db') (assigned_user_id env)
               = Ok (Some (new_user bcrypt_hash env dto r))).
  { rewrite Hprisma. unfold user_findUnique_id. simpl. f_equal.
    clear - Hfresh. induction Hfresh as [|u us Hu _ IH]; simpl.
    - now rewrite String.eqb_refl.
    - apply String.eqb_neq in Hu. now rewrite Hu. }
  assert (Ho : organization_findFirst_userId (prisma db') (assigned_user_id env)
               = Ok (Some (new_organization env features))).
  { rewrite Hprisma. unfold organization_findFirst_userId. simpl. f_equal.
    clear - Hunbound. induction Hunbound as [|g gs Hg _ IH]; simpl.
    - now rewrite String.eqb_refl.
    - apply String.eqb_neq in Hg. now rewrite Hg. }
  assert (Hfirst : first_roleName (new_user bcrypt_hash env dto r)
                   = Ok RolesEnum_organizationAdmin).
  { unfold first_roleName. simpl. now rewrite Hname, Hrole. }
  apply String.eqb_neq in Hnot.
  assert (Hsome : JwtStrategy.some_superAdmin
                    (userRoles (new_user bcrypt_hash env dto r)) = Ok false).
  { simpl. now rewrite Hname, Hnot. }
  assert (Hoffice : first_organization (new_user bcrypt_hash env dto r) = None)
    by reflexivity.
  assert (Hid : user_id (new_user bcrypt_hash env dto r) = assigned_user_id env)
    by reflexivity.
  assert (Hmail : user_email (new_user bcrypt_hash env dto r) = new_email dto)
    by reflexivity.
  set (u0 := new_user bcrypt_hash env dto r) in *. clearbody u0.
  split; [|split].
  - unfold AuthServiceRev.generateTokenPayload. rewrite Hu.
    simpl.
    rewrite Hfirst. simpl. rewrite Hnot.
    unfold AuthServiceRev.organization_claims. rewrite Hid, Ho. simpl.
    rewrite Hmail. unfold feature_strings. rewrite map_map. simpl.
    now rewrite map_id.
  - unfold AuthService.generateTokenPayload. rewrite Hu.
    simpl.
    rewrite Hfirst. simpl. rewrite Hnot, Hoffice, Hid, Hmail. reflexivity.
  - unfold JwtStrategy.validate. rewrite Hsubt, Hemail, Hsub, Hu.
    simpl.
    rewrite Hsome. simpl. now rewrite Hoffice.
Qed.

End Registration.

Lemma getOffices_lists_own_offices_witness :
  exists listed,
    OrganizationService.getOffices Fixture.db "org-1" = Ok listed /\
    (In (Fixture.head_office, Some Sample.acme) listed) /\
    ~ In (Fixture.depot, Some Sample.blanks) listed.
Proof.
  destruct (getOffices_lists_own_offices string string Z Fixture.db "org-1"
              Sample.acme eq_refl eq_refl eq_refl) as (listed & Hget & Hin).
  exists listed. split; [exact Hget|]. split.
  - apply Hin. split; [now left|]. split; reflexivity.
  - intros H. apply Hin in H as (_ & H & _). discriminate H.
Defined.

Lemma getOffices_query_failures_witness :
  OrganizationService.getOffices Fixture.db_offices_down "org-1"
  = Throw PrismaClientError.
Proof.
  apply (getOffices_query_failures string string Z Fixture.db_offices_down "org-1");
    [reflexivity | reflexivity | reflexivity | discriminate].
Defined.

Lemma getAllBankAccounts_skips_organization_witness :
  OrganizationService.organization_findUnique_id Fixture.db "org-9" = Ok None /\
  exists accounts,
    OrganizationService.getAllBankAccounts Fixture.db "org-9" = Ok accounts /\
    In Fixture.stray_account accounts.
Proof.
  split; [reflexivity|].
  destruct (getAllBankAccounts_skips_organization string string Z Fixture.db
              "org-9" eq_refl eq_refl) as (accounts & Hget & Hin).
  exists accounts. split; [exact Hget|].
  apply Hin. split; [right; now left | reflexivity].
Defined.

Lemma deleteOffice_removes_own_office_witness :
  exists db',
    OrganizationService.deleteOffice Fixture.db "of-1" "org-1"
    = Ok (db', Fixture.head_office) /\
    In Fixture.depot (OrganizationService.office_table db') /\
    ~ In Fixture.head_office (OrganizationService.office_table db').
Proof.
  eexists. split; [reflexivity|].
  destruct (deleteOffice_removes_own_office string string Z Fixture.db "org-1"
              "of-1" _ Fixture.head_office eq_refl)
    as (_ & _ & _ & Hleft & _).
  split.
  - apply Hleft. split; [right; now left | discriminate].
  - intros H. apply Hleft in H as [_ H]. now apply H.
Defined.

Lemma deleteOffice_foreign_office_witness :
  OrganizationService.deleteOffice Fixture.db "of-2" "org-1"
  = Throw (NotFoundException "Office with this ID doesn't exist") /\
  OrganizationService.deleteOffice Fixture.db "of-7" "org-1"
  = Throw (NotFoundException "Office with this ID doesn't exist").
Proof.
  split; [|reflexivity].
  apply (deleteOffice_foreign_office string string Z Fixture.db "org-1" "of-2"
           Fixture.depot); [reflexivity | discriminate].
Defined.

Lemma addOffice_then_getOffices_witness :
  exists db' row joined listed,
    OrganizationService.addOffice Fixture.db Fixture.branch "Annex" "org-1"
    = Ok (db', (row, joined)) /\
    OrganizationService.office_id row = "of-3" /\
    OrganizationService.getOffices db' "org-1" = Ok listed /\
    In (row, joined) listed /\
    OrganizationService.getOffices db' "org-2"
    = OrganizationService.getOffices Fixture.db "org-2".
Proof.
  eexists _, _, _.
  destruct (addOffice_then_getOffices string string Z Fixture.db "org-1"
              Fixture.branch "Annex" _ _ _ eq_refl)
    as (Hrow & (listed & Hget & Hin) & Hother).
  exists listed. split; [reflexivity|]. split; [reflexivity|].
  split; [exact Hget|]. split; [exact Hin|].
  apply Hother. discriminate.
Defined.

Lemma addOffice_then_deleteOffice_witness :
  exists db' created,
    OrganizationService.addOffice Fixture.db Fixture.branch "Annex" "org-1"
    = Ok (db', created) /\
    OrganizationService.deleteOffice db' "of-3" "org-1"
    = Ok (Fixture.db, fst created).
Proof.
  eexists _, _. split; [reflexivity|].
  apply (addOffice_then_deleteOffice string string Z Fixture.db "org-1"
           Fixture.branch "Annex"); [|reflexivity].
  repeat constructor; discriminate.
Defined.

(** ** The handler of [addOffice] *)

(** X26.  The [addOffice] handler does not let the errors of the service out:
    a missing organization id and an unknown organization are answered with
    [success = false], no data and the message of the NotFound error; and
    every answer with [success = false] carries a non-empty message and
    leaves the tables as they were. *)
Theorem addOffice_handler_reports_failure
    (CreateOfficeDto CreateOrganizationBankAccountDto BranchCode : Type)
    (native_message : Exception -> string)
    (db : OrganizationService.Database
            CreateOfficeDto CreateOrganizationBankAccountDto BranchCode)
    (gen : OrganizationService.Generated BranchCode)
    (dto : CreateOfficeDto) (organizationId : string) :
  (truthy organizationId = false ->
   OrganizationController.addOffice_handler native_message db gen dto organizationId
   = (db, {| OrganizationController.success := false;
             OrganizationController.data := None;
             OrganizationController.message := "Organization ID missing" |})) /\
  (truthy organizationId = true ->
   OrganizationService.organization_findUnique_id db organizationId = Ok None ->
   OrganizationController.addOffice_handler native_message db gen dto organizationId
   = (db, {| OrganizationController.success := false;
             OrganizationController.data := None;
             OrganizationController.message := "Organization doesn't exist" |})) /\
  (OrganizationController.success
     (snd (OrganizationController.addOffice_handler native_message db gen dto
             organizationId)) = false ->
   fst (OrganizationController.addOffice_handler native_message db gen dto
          organizationId) = db /\
   OrganizationController.data
     (snd (OrganizationController.addOffice_handler native_message db gen dto
             organizationId)) = None /\
   OrganizationController.message
     (snd (OrganizationController.addOffice_handler native_message db gen dto
             organizationId)) <> "").
Proof.
  unfold OrganizationController.addOffice_handler, OrganizationService.addOffice.
  split; [|split].
  - intros ->. reflexivity.
  - intros -> ->. reflexivity.
  - destruct (negb (truthy organizationId)); simpl.
    + intros _. repeat split. discriminate.
    + destruct (_ ≫= _) as [[db' office]|e]; simpl; [discriminate|].
      intros _. repeat split.
      destruct (truthy (OrganizationController.error_message native_message e))
        eqn:Ht; [now apply truthy_true | discriminate].
Qed.

Lemma addOffice_handler_reports_failure_witness :
  OrganizationController.addOffice_handler Fixture.runtime_message Fixture.db
    Fixture.branch "Annex" ""
  = (Fixture.db, {| OrganizationController.success := false;
                    OrganizationController.data := None;
                    OrganizationController.message := "Organization ID missing" |}).
Proof.
  apply (addOffice_handler_reports_failure string string Z Fixture.runtime_message
           Fixture.db Fixture.branch "Annex" "").
  reflexivity.
Defined.

Lemma create_requires_features_witness :
  OrganizationService.create (fun name : string => name) Fixture.hash
    "organizationAdmin" Fixture.client_message Fixture.db Fixture.assigned
    {| OrganizationService.new_columns := "Globex";
       OrganizationService.new_email := "owner@globex.io";
       OrganizationService.new_password := "hunter2";
       OrganizationService.new_userName := "owner";
       OrganizationService.new_features := Some [];
       OrganizationService.new_office := @None (list string) |}
  = OrganizationService.Failed
      (OrganizationService.Http
         (InternalServerErrorException "At least one feature must be provided")).
Proof.
  apply create_requires_features. right. reflexivity.
Defined.

Lemma create_failure_kinds_witness :
  OrganizationService.create (fun name : string => name) Fixture.hash
    "organizationAdmin" Fixture.client_message Fixture.db Fixture.assigned
    {| OrganizationService.new_columns := "Acme 2";
       OrganizationService.new_email := "admin@acme.io";
       OrganizationService.new_password := "hunter2";
       OrganizationService.new_userName := "second";
       OrganizationService.new_features := Some ["payroll"];
       OrganizationService.new_office := @None (list string) |}
  = OrganizationService.Failed
      (OrganizationService.ConflictException
         "Organization with this email already exists") /\
  ((exists m,
      OrganizationService.ConflictException
        "Organization with this email already exists"
      = OrganizationService.ConflictException m) \/
   (exists m,
      OrganizationService.ConflictException
        "Organization with this email already exists"
      = OrganizationService.Http (NotFoundException m)) \/
   (exists m,
      OrganizationService.ConflictException
        "Organization with this email already exists"
      = OrganizationService.Http (InternalServerErrorException m))).
Proof.
  split; [reflexivity|].
  apply (create_failure_kinds string string Z string (fun name => name)
           Fixture.hash "organizationAdmin" Fixture.client_message Fixture.db
           Fixture.assigned
           {| OrganizationService.new_columns := "Acme 2";
              OrganizationService.new_email := "admin@acme.io";
              OrganizationService.new_password := "hunter2";
              OrganizationService.new_userName := "second";
              OrganizationService.new_features := Some ["payroll"];
              OrganizationService.new_office := @None (list string) |}).
  reflexivity.
Defined.

Lemma create_unique_violation_witness :
  OrganizationService.create (fun name : string => name) Fixture.hash
    "organizationAdmin" Fixture.client_message Fixture.db
    {| OrganizationService.assigned_user_id := "u-new";
       OrganizationService.assigned_organization_id := "org-3";
       OrganizationService.assigned_office :=
         OrganizationService.assigned_office Fixture.assigned;
       OrganizationService.rejected := Some (Some ["userName"]) |}
    Fixture.registration
  = OrganizationService.Failed
      (OrganizationService.ConflictException "userName already exists").
Proof.
  apply (create_unique_violation string string Z string (fun name => name)
           Fixture.hash "organizationAdmin" Fixture.client_message Fixture.db _
           Fixture.registration ["payroll"; "dashboard"]
           {| roleName := "organizationAdmin" |} (Some ["userName"]));
    try reflexivity; try discriminate.
  repeat split.
Defined.

Lemma registered_admin_is_orphaned_witness :
  exists db' created,
    OrganizationService.create (fun name : string => name) Fixture.hash
      "organizationAdmin" Fixture.client_message Fixture.db Fixture.assigned
      Fixture.registration = OrganizationService.Done (db', created) /\
    AuthServiceRev.generateTokenPayload Sample.catalog
      (OrganizationService.prisma db') "u-new"
    = Ok {| sub := "u-new";
            email := "owner@globex.io";
            payload_role := "organizationAdmin";
            organizationId := Some "org-3";
            features := ["payroll"; "dashboard"];
            isSuperAdmin := false |} /\
    JwtStrategy.validate (OrganizationService.prisma db')
      {| JwtStrategy.dp_sub := "u-new";
         JwtStrategy.dp_email := "owner@globex.io";
         JwtStrategy.dp_organizationId := Some "org-3";
         JwtStrategy.dp_features := Some ["payroll"; "dashboard"];
         JwtStrategy.dp_role := Some "organizationAdmin";
         JwtStrategy.dp_isSuperAdmin := Some false;
         JwtStrategy.dp_iat := None;
         JwtStrategy.dp_exp := None |}
    = Throw (UnauthorizedException "User has no organization access").
Proof.
  eexists _, _. split; [reflexivity|].
  edestruct (registered_admin_is_orphaned string string Z string
               (fun name => name) Fixture.hash "organizationAdmin"
               Fixture.client_message Fixture.db Fixture.assigned
               Fixture.registration Sample.catalog)
    as (Hrev & _ & Hval); [reflexivity | | | | | | | |].
  8: { split; [exact Hrev | exact Hval]. }
  all: try reflexivity; try discriminate.
  - repeat constructor; discriminate.
  - repeat constructor; discriminate.
Defined.
